(** * State vaping and tobacco policy catalogue

    A shallow embedding of [state_policies.py]: the [StateTobaccoPolicy]
    dataclass, the literal catalogue [STATES], the JSON exporter
    [export_to_json] and the summary reporter [generate_summary_stats],
    followed by the properties of the catalogue and of the two reports. *)

From Stdlib Require Import ZArith Ascii String.
From stdpp Require Import gmap strings list.

Local Open Scope string_scope.
Local Open Scope Z_scope.

(** ** The dataclass *)

(** Python [str] values are kept as the bytes of their UTF-8 encoding,
    [Optional[str]] as [option string], [int] as [Z] and [List[str]] as
    [list string].  The fields come in the order of the class body; that
    order is the key order of [asdict]. *)
Record StateTobaccoPolicy : Type := mkStateTobaccoPolicy {
  state : string;
  state_abbr : string;
  flavored_ecig_ban : string;
  flavored_ecig_details : string;
  flavored_ecig_effective_date : option string;
  menthol_cig_ban : bool;
  menthol_ban_details : string;
  menthol_effective_date : option string;
  has_ecig_tax : bool;
  ecig_tax_rate : string;
  ecig_tax_structure : string;
  indoor_vaping_ban : bool;
  indoor_ban_details : string;
  minimum_age : Z;
  state_t21_law : bool;
  licensing_required : bool;
  license_fee : string;
  local_restrictions : list string;
  recent_changes : string;
  sources : list string
}.

#[global] Instance StateTobaccoPolicy_eq_dec : EqDecision StateTobaccoPolicy.
Proof. solve_decision. Defined.

(** A keyword argument of the generated [__init__], for the fields that have
    a default.  The catalogue passes every optional date as a [str]. *)
Inductive kwarg : Type :=
  | kw_flavored_ecig_effective_date (v : string)
  | kw_menthol_cig_ban (v : bool)
  | kw_menthol_ban_details (v : string)
  | kw_menthol_effective_date (v : string)
  | kw_has_ecig_tax (v : bool)
  | kw_ecig_tax_rate (v : string)
  | kw_ecig_tax_structure (v : string)
  | kw_indoor_vaping_ban (v : bool)
  | kw_indoor_ban_details (v : string)
  | kw_minimum_age (v : Z)
  | kw_state_t21_law (v : bool)
  | kw_licensing_required (v : bool)
  | kw_license_fee (v : string)
  | kw_local_restrictions (v : list string)
  | kw_recent_changes (v : string)
  | kw_sources (v : list string).

Definition set_kwarg (p : StateTobaccoPolicy) (k : kwarg) : StateTobaccoPolicy :=
  let '(mkStateTobaccoPolicy st ab fb fd fe mb md me ht tr ts ib idt ma t21 lr lf loc rc src) := p in
  match k with
  | kw_flavored_ecig_effective_date v =>
      mkStateTobaccoPolicy st ab fb fd (Some v) mb md me ht tr ts ib idt ma t21 lr lf loc rc src
  | kw_menthol_cig_ban v =>
      mkStateTobaccoPolicy st ab fb fd fe v md me ht tr ts ib idt ma t21 lr lf loc rc src
  | kw_menthol_ban_details v =>
      mkStateTobaccoPolicy st ab fb fd fe mb v me ht tr ts ib idt ma t21 lr lf loc rc src
  | kw_menthol_effective_date v =>
      mkStateTobaccoPolicy st ab fb fd fe mb md (Some v) ht tr ts ib idt ma t21 lr lf loc rc src
  | kw_has_ecig_tax v =>
      mkStateTobaccoPolicy st ab fb fd fe mb md me v tr ts ib idt ma t21 lr lf loc rc src
  | kw_ecig_tax_rate v =>
      mkStateTobaccoPolicy st ab fb fd fe mb md me ht v ts ib idt ma t21 lr lf loc rc src
  | kw_ecig_tax_structure v =>
      mkStateTobaccoPolicy st ab fb fd fe mb md me ht tr v ib idt ma t21 lr lf loc rc src
  | kw_indoor_vaping_ban v =>
      mkStateTobaccoPolicy st ab fb fd fe mb md me ht tr ts v idt ma t21 lr lf loc rc src
  | kw_indoor_ban_details v =>
      mkStateTobaccoPolicy st ab fb fd fe mb md me ht tr ts ib v ma t21 lr lf loc rc src
  | kw_minimum_age v =>
      mkStateTobaccoPolicy st ab fb fd fe mb md me ht tr ts ib idt v t21 lr lf loc rc src
  | kw_state_t21_law v =>
      mkStateTobaccoPolicy st ab fb fd fe mb md me ht tr ts ib idt ma v lr lf loc rc src
  | kw_licensing_required v =>
      mkStateTobaccoPolicy st ab fb fd fe mb md me ht tr ts ib idt ma t21 v lf loc rc src
  | kw_license_fee v =>
      mkStateTobaccoPolicy st ab fb fd fe mb md me ht tr ts ib idt ma t21 lr v loc rc src
  | kw_local_restrictions v =>
      mkStateTobaccoPolicy st ab fb fd fe mb md me ht tr ts ib idt ma t21 lr lf v rc src
  | kw_recent_changes v =>
      mkStateTobaccoPolicy st ab fb fd fe mb md me ht tr ts ib idt ma t21 lr lf loc v src
  | kw_sources v =>
      mkStateTobaccoPolicy st ab fb fd fe mb md me ht tr ts ib idt ma t21 lr lf loc rc v
  end.

(** The generated constructor: the four fields without a default are
    required, every other field starts from its declared default and is
    overwritten by the keyword arguments given. *)
Definition StateTobaccoPolicy_init
    (state state_abbr flavored_ecig_ban flavored_ecig_details : string)
    (kwargs : list kwarg) : StateTobaccoPolicy :=
  fold_left set_kwarg kwargs
    {| state := state;
       state_abbr := state_abbr;
       flavored_ecig_ban := flavored_ecig_ban;
       flavored_ecig_details := flavored_ecig_details;
       flavored_ecig_effective_date := None;
       menthol_cig_ban := false;
       menthol_ban_details := EmptyString;
       menthol_effective_date := None;
       has_ecig_tax := false;
       ecig_tax_rate := EmptyString;
       ecig_tax_structure := EmptyString;
       indoor_vaping_ban := false;
       indoor_ban_details := EmptyString;
       minimum_age := 21;
       state_t21_law := false;
       licensing_required := false;
       license_fee := EmptyString;
       local_restrictions := [];
       recent_changes := EmptyString;
       sources := [] |}.

(** ** The catalogue *)

Definition policy_AL : StateTobaccoPolicy :=
  StateTobaccoPolicy_init
    "Alabama" "AL" "none"
    "No statewide restrictions on flavored e-cigarettes"
    [ kw_has_ecig_tax false;
      kw_indoor_vaping_ban false;
      kw_state_t21_law false;
      kw_sources ["Tax Foundation 2025"; "Truth Initiative 2025"] ].

Definition policy_AK : StateTobaccoPolicy :=
  StateTobaccoPolicy_init
    "Alaska" "AK" "none"
    "No statewide restrictions on flavored e-cigarettes"
    [ kw_has_ecig_tax false;
      kw_ecig_tax_rate "No statewide tax, but several municipalities impose taxes: Juneau (45%), Anchorage (55%), Matanuska-Susitna (55%)";
      kw_indoor_vaping_ban false;
      kw_state_t21_law true;
      kw_sources ["Tax Foundation 2025"; "ComplyIQ 2025"] ].

Definition policy_AZ : StateTobaccoPolicy :=
  StateTobaccoPolicy_init
    "Arizona" "AZ" "none"
    "No statewide restrictions on flavored e-cigarettes"
    [ kw_has_ecig_tax false;
      kw_indoor_vaping_ban false;
      kw_state_t21_law true;
      kw_sources ["Tax Foundation 2025"; "Truth Initiative 2025"] ].

Definition policy_AR : StateTobaccoPolicy :=
  StateTobaccoPolicy_init
    "Arkansas" "AR" "none"
    "No statewide restrictions on flavored e-cigarettes"
    [ kw_has_ecig_tax false;
      kw_indoor_vaping_ban false;
      kw_state_t21_law true;
      kw_sources ["Tax Foundation 2025"] ].

Definition policy_CA : StateTobaccoPolicy :=
  StateTobaccoPolicy_init
    "California" "CA" "comprehensive"
    "Comprehensive ban on all flavored tobacco products including menthol. Voters upheld the ban in November 2022."
    [ kw_flavored_ecig_effective_date "2022-12-21";
      kw_menthol_cig_ban true;
      kw_menthol_ban_details "Statewide ban on menthol cigarettes, approved by voters in 2022";
      kw_menthol_effective_date "2022-12-21";
      kw_has_ecig_tax true;
      kw_ecig_tax_rate "12.5% wholesale, rising to 56.67% by July 1, 2026";
      kw_ecig_tax_structure "wholesale %";
      kw_indoor_vaping_ban true;
      kw_indoor_ban_details "Comprehensive smoke-free law covering e-cigarettes in workplaces, restaurants, and bars";
      kw_state_t21_law true;
      kw_recent_changes "As of Jan 1, 2025, flavor prohibition extended to internet sales. AB 3218 prohibits menthol-like cooling sensations (WS-3, WS-23). SB 1230 allows seizure of illegal flavored products.";
      kw_local_restrictions ["Numerous cities and counties with additional restrictions"];
      kw_sources ["Campaign for Tobacco-Free Kids 2024"; "VapeRanger 2025"; "Truth Initiative 2025"] ].

Definition policy_CO : StateTobaccoPolicy :=
  StateTobaccoPolicy_init
    "Colorado" "CO" "partial"
    "State law bans flavored vape products except tobacco and menthol flavors"
    [ kw_has_ecig_tax true;
      kw_ecig_tax_rate "30% wholesale (open), 50% wholesale (closed)";
      kw_ecig_tax_structure "wholesale %";
      kw_indoor_vaping_ban true;
      kw_indoor_ban_details "Comprehensive smoke-free law covering e-cigarettes";
      kw_state_t21_law true;
      kw_sources ["Tax Foundation 2025"; "VapeRanger 2025"] ].

Definition policy_CT : StateTobaccoPolicy :=
  StateTobaccoPolicy_init
    "Connecticut" "CT" "none"
    "No statewide flavor ban"
    [ kw_has_ecig_tax true;
      kw_ecig_tax_rate "$0.40 per mL";
      kw_ecig_tax_structure "per mL";
      kw_indoor_vaping_ban true;
      kw_indoor_ban_details "Comprehensive smoke-free law covering e-cigarettes";
      kw_state_t21_law true;
      kw_sources ["Tax Foundation 2025"; "Truth Initiative 2025"] ].

Definition policy_DE : StateTobaccoPolicy :=
  StateTobaccoPolicy_init
    "Delaware" "DE" "partial"
    "Illegal to sell flavored single-use disposable vapes"
    [ kw_has_ecig_tax true;
      kw_ecig_tax_rate "$1.25 per mL";
      kw_ecig_tax_structure "per mL";
      kw_indoor_vaping_ban true;
      kw_indoor_ban_details "Comprehensive smoke-free law covering e-cigarettes";
      kw_licensing_required true;
      kw_license_fee "$800/year";
      kw_state_t21_law true;
      kw_sources ["Tax Foundation 2025"; "Ecigator 2025"; "Truth Initiative 2025"] ].

Definition policy_FL : StateTobaccoPolicy :=
  StateTobaccoPolicy_init
    "Florida" "FL" "none"
    "No statewide restrictions on flavored e-cigarettes"
    [ kw_has_ecig_tax false;
      kw_indoor_vaping_ban false;
      kw_state_t21_law false;
      kw_sources ["Tax Foundation 2025"] ].

Definition policy_GA : StateTobaccoPolicy :=
  StateTobaccoPolicy_init
    "Georgia" "GA" "none"
    "No statewide restrictions on flavored e-cigarettes"
    [ kw_has_ecig_tax true;
      kw_ecig_tax_rate "7% wholesale";
      kw_ecig_tax_structure "wholesale %";
      kw_indoor_vaping_ban false;
      kw_state_t21_law true;
      kw_sources ["Tax Foundation 2025"] ].

Definition policy_HI : StateTobaccoPolicy :=
  StateTobaccoPolicy_init
    "Hawaii" "HI" "none"
    "No statewide flavor ban"
    [ kw_has_ecig_tax true;
      kw_ecig_tax_rate "70% wholesale";
      kw_ecig_tax_structure "wholesale %";
      kw_indoor_vaping_ban true;
      kw_indoor_ban_details "Comprehensive smoke-free law covering e-cigarettes";
      kw_state_t21_law true;
      kw_sources ["Tax Foundation 2025"; "Truth Initiative 2025"] ].

Definition policy_ID : StateTobaccoPolicy :=
  StateTobaccoPolicy_init
    "Idaho" "ID" "none"
    "No statewide restrictions on flavored e-cigarettes"
    [ kw_has_ecig_tax false;
      kw_indoor_vaping_ban false;
      kw_state_t21_law false;
      kw_sources ["Tax Foundation 2025"] ].

Definition policy_IL : StateTobaccoPolicy :=
  StateTobaccoPolicy_init
    "Illinois" "IL" "none"
    "No statewide flavor ban, but many local restrictions"
    [ kw_has_ecig_tax true;
      kw_ecig_tax_rate "$2.50 per mL";
      kw_ecig_tax_structure "per mL";
      kw_indoor_vaping_ban true;
      kw_indoor_ban_details "Comprehensive smoke-free law covering e-cigarettes";
      kw_licensing_required true;
      kw_license_fee "$1,200/year";
      kw_state_t21_law true;
      kw_local_restrictions ["Chicago has comprehensive local flavor restrictions"];
      kw_sources ["Tax Foundation 2025"; "Ecigator 2025"; "Truth Initiative 2025"] ].

Definition policy_IN : StateTobaccoPolicy :=
  StateTobaccoPolicy_init
    "Indiana" "IN" "none"
    "No statewide restrictions on flavored e-cigarettes"
    [ kw_has_ecig_tax true;
      kw_ecig_tax_rate "15% wholesale";
      kw_ecig_tax_structure "wholesale %";
      kw_indoor_vaping_ban false;
      kw_state_t21_law true;
      kw_sources ["Tax Foundation 2025"] ].

Definition policy_IA : StateTobaccoPolicy :=
  StateTobaccoPolicy_init
    "Iowa" "IA" "none"
    "No statewide restrictions on flavored e-cigarettes"
    [ kw_has_ecig_tax false;
      kw_ecig_tax_rate "Subject to sales tax only";
      kw_indoor_vaping_ban false;
      kw_state_t21_law false;
      kw_sources ["Tax Foundation 2025"; "ComplyIQ 2025"] ].

Definition policy_KS : StateTobaccoPolicy :=
  StateTobaccoPolicy_init
    "Kansas" "KS" "none"
    "No statewide restrictions on flavored e-cigarettes"
    [ kw_has_ecig_tax true;
      kw_ecig_tax_rate "20% retail";
      kw_ecig_tax_structure "retail %";
      kw_indoor_vaping_ban true;
      kw_indoor_ban_details "Comprehensive smoke-free law covering e-cigarettes";
      kw_state_t21_law true;
      kw_sources ["Tax Foundation 2025"; "Truth Initiative 2025"] ].

Definition policy_KY : StateTobaccoPolicy :=
  StateTobaccoPolicy_init
    "Kentucky" "KY" "none"
    "No statewide restrictions on flavored e-cigarettes"
    [ kw_has_ecig_tax true;
      kw_ecig_tax_rate "$1.50 per cartridge";
      kw_ecig_tax_structure "per cartridge";
      kw_indoor_vaping_ban false;
      kw_state_t21_law true;
      kw_sources ["Tax Foundation 2025"] ].

Definition policy_LA : StateTobaccoPolicy :=
  StateTobaccoPolicy_init
    "Louisiana" "LA" "none"
    "No statewide restrictions on flavored e-cigarettes"
    [ kw_has_ecig_tax true;
      kw_ecig_tax_rate "15% wholesale";
      kw_ecig_tax_structure "wholesale %";
      kw_indoor_vaping_ban false;
      kw_state_t21_law true;
      kw_sources ["Tax Foundation 2025"] ].

Definition policy_ME : StateTobaccoPolicy :=
  StateTobaccoPolicy_init
    "Maine" "ME" "none"
    "No statewide flavor ban"
    [ kw_has_ecig_tax true;
      kw_ecig_tax_rate "43% wholesale";
      kw_ecig_tax_structure "wholesale %";
      kw_indoor_vaping_ban true;
      kw_indoor_ban_details "Comprehensive smoke-free law covering e-cigarettes";
      kw_state_t21_law true;
      kw_sources ["Tax Foundation 2025"; "Truth Initiative 2025"] ].

Definition policy_MD : StateTobaccoPolicy :=
  StateTobaccoPolicy_init
    "Maryland" "MD" "partial"
    "Limits flavored product sales to age-restricted venues"
    [ kw_has_ecig_tax true;
      kw_ecig_tax_rate "60% retail";
      kw_ecig_tax_structure "retail %";
      kw_indoor_vaping_ban true;
      kw_indoor_ban_details "Comprehensive smoke-free law covering e-cigarettes";
      kw_state_t21_law true;
      kw_sources ["Tax Foundation 2025"; "Ecigator 2025"; "Truth Initiative 2025"] ].

Definition policy_MA : StateTobaccoPolicy :=
  StateTobaccoPolicy_init
    "Massachusetts" "MA" "comprehensive"
    "First state to ban all flavored tobacco products including menthol cigarettes (effective 2020)"
    [ kw_flavored_ecig_effective_date "2020-06-01";
      kw_menthol_cig_ban true;
      kw_menthol_ban_details "Comprehensive ban on menthol cigarettes statewide";
      kw_menthol_effective_date "2020-06-01";
      kw_has_ecig_tax true;
      kw_ecig_tax_rate "75% wholesale";
      kw_ecig_tax_structure "wholesale %";
      kw_indoor_vaping_ban true;
      kw_indoor_ban_details "Comprehensive smoke-free law covering e-cigarettes";
      kw_state_t21_law true;
      kw_sources ["Campaign for Tobacco-Free Kids 2024"; "Tax Foundation 2025"; "Stateline 2024"] ].

Definition policy_MI : StateTobaccoPolicy :=
  StateTobaccoPolicy_init
    "Michigan" "MI" "none"
    "No statewide restrictions on flavored e-cigarettes"
    [ kw_has_ecig_tax false;
      kw_indoor_vaping_ban false;
      kw_state_t21_law true;
      kw_sources ["Tax Foundation 2025"] ].

Definition policy_MN : StateTobaccoPolicy :=
  StateTobaccoPolicy_init
    "Minnesota" "MN" "none"
    "No statewide flavor ban"
    [ kw_has_ecig_tax true;
      kw_ecig_tax_rate "95% wholesale";
      kw_ecig_tax_structure "wholesale %";
      kw_indoor_vaping_ban false;
      kw_state_t21_law true;
      kw_sources ["Tax Foundation 2025"] ].

Definition policy_MS : StateTobaccoPolicy :=
  StateTobaccoPolicy_init
    "Mississippi" "MS" "none"
    "No statewide restrictions on flavored e-cigarettes"
    [ kw_has_ecig_tax false;
      kw_indoor_vaping_ban false;
      kw_state_t21_law false;
      kw_sources ["Tax Foundation 2025"] ].

Definition policy_MO : StateTobaccoPolicy :=
  StateTobaccoPolicy_init
    "Missouri" "MO" "none"
    "No statewide restrictions on flavored e-cigarettes"
    [ kw_has_ecig_tax false;
      kw_indoor_vaping_ban false;
      kw_state_t21_law false;
      kw_sources ["Tax Foundation 2025"] ].

Definition policy_MT : StateTobaccoPolicy :=
  StateTobaccoPolicy_init
    "Montana" "MT" "none"
    "No statewide restrictions on flavored e-cigarettes"
    [ kw_has_ecig_tax false;
      kw_indoor_vaping_ban false;
      kw_state_t21_law false;
      kw_sources ["Tax Foundation 2025"] ].

Definition policy_NE : StateTobaccoPolicy :=
  StateTobaccoPolicy_init
    "Nebraska" "NE" "none"
    "No statewide restrictions on flavored e-cigarettes"
    [ kw_has_ecig_tax true;
      kw_ecig_tax_rate "20% wholesale";
      kw_ecig_tax_structure "wholesale %";
      kw_indoor_vaping_ban false;
      kw_state_t21_law true;
      kw_sources ["Tax Foundation 2025"] ].

Definition policy_NV : StateTobaccoPolicy :=
  StateTobaccoPolicy_init
    "Nevada" "NV" "none"
    "No statewide restrictions on flavored e-cigarettes"
    [ kw_has_ecig_tax true;
      kw_ecig_tax_rate "30% wholesale";
      kw_ecig_tax_structure "wholesale %";
      kw_indoor_vaping_ban false;
      kw_state_t21_law true;
      kw_sources ["Tax Foundation 2025"] ].

Definition policy_NH : StateTobaccoPolicy :=
  StateTobaccoPolicy_init
    "New Hampshire" "NH" "none"
    "No statewide restrictions on flavored e-cigarettes"
    [ kw_has_ecig_tax true;
      kw_ecig_tax_rate "8% wholesale (open), $0.30/mL (closed)";
      kw_ecig_tax_structure "hybrid";
      kw_indoor_vaping_ban false;
      kw_state_t21_law true;
      kw_sources ["Tax Foundation 2025"] ].

Definition policy_NJ : StateTobaccoPolicy :=
  StateTobaccoPolicy_init
    "New Jersey" "NJ" "comprehensive"
    "Comprehensive ban on flavored e-cigarettes (tobacco flavor only allowed). Does NOT ban menthol cigarettes."
    [ kw_flavored_ecig_effective_date "2020-04-20";
      kw_menthol_cig_ban false;
      kw_has_ecig_tax true;
      kw_ecig_tax_rate "10% retail";
      kw_ecig_tax_structure "retail %";
      kw_indoor_vaping_ban true;
      kw_indoor_ban_details "Comprehensive smoke-free law covering e-cigarettes";
      kw_state_t21_law true;
      kw_sources ["Campaign for Tobacco-Free Kids 2024"; "Tax Foundation 2025"; "VapeRanger 2025"] ].

Definition policy_NM : StateTobaccoPolicy :=
  StateTobaccoPolicy_init
    "New Mexico" "NM" "none"
    "No statewide restrictions on flavored e-cigarettes"
    [ kw_has_ecig_tax true;
      kw_ecig_tax_rate "$0.50 per cartridge";
      kw_ecig_tax_structure "per cartridge";
      kw_indoor_vaping_ban true;
      kw_indoor_ban_details "Comprehensive smoke-free law covering e-cigarettes";
      kw_state_t21_law true;
      kw_sources ["Tax Foundation 2025"; "Truth Initiative 2025"] ].

Definition policy_NY : StateTobaccoPolicy :=
  StateTobaccoPolicy_init
    "New York" "NY" "comprehensive"
    "Comprehensive ban on flavored e-cigarettes (tobacco flavor only allowed). Does NOT ban menthol cigarettes."
    [ kw_flavored_ecig_effective_date "2020-05-18";
      kw_menthol_cig_ban false;
      kw_has_ecig_tax true;
      kw_ecig_tax_rate "20% retail";
      kw_ecig_tax_structure "retail %";
      kw_indoor_vaping_ban true;
      kw_indoor_ban_details "Comprehensive smoke-free law covering e-cigarettes";
      kw_state_t21_law true;
      kw_sources ["Campaign for Tobacco-Free Kids 2024"; "Tax Foundation 2025"; "VapeRanger 2025"] ].

Definition policy_NC : StateTobaccoPolicy :=
  StateTobaccoPolicy_init
    "North Carolina" "NC" "partial"
    "As of July 1, 2025, only disposable vapes listed on state directory of FDA-authorized products can be sold"
    [ kw_flavored_ecig_effective_date "2025-07-01";
      kw_has_ecig_tax true;
      kw_ecig_tax_rate "12.8% wholesale (open), $0.05/mL (closed)";
      kw_ecig_tax_structure "hybrid";
      kw_indoor_vaping_ban false;
      kw_state_t21_law true;
      kw_recent_changes "New FDA-authorized product requirement as of July 2025";
      kw_sources ["Tax Foundation 2025"; "VapeRanger 2025"] ].

Definition policy_ND : StateTobaccoPolicy :=
  StateTobaccoPolicy_init
    "North Dakota" "ND" "none"
    "No statewide restrictions on flavored e-cigarettes"
    [ kw_has_ecig_tax false;
      kw_indoor_vaping_ban true;
      kw_indoor_ban_details "Comprehensive smoke-free law covering e-cigarettes";
      kw_state_t21_law true;
      kw_sources ["Tax Foundation 2025"; "Truth Initiative 2025"] ].

Definition policy_OH : StateTobaccoPolicy :=
  StateTobaccoPolicy_init
    "Ohio" "OH" "partial"
    "Statewide flavor ban enacted in 2025"
    [ kw_flavored_ecig_effective_date "2025";
      kw_has_ecig_tax true;
      kw_ecig_tax_rate "10% retail";
      kw_ecig_tax_structure "retail %";
      kw_indoor_vaping_ban false;
      kw_state_t21_law true;
      kw_recent_changes "State flavor ban enacted 2025. Court ruled state preemption of local tobacco laws unconstitutional (May 2024).";
      kw_local_restrictions ["Columbus and 13 other municipalities have local flavor restrictions"];
      kw_sources ["Tax Foundation 2025"; "VapeRanger 2025"; "Campaign for Tobacco-Free Kids 2024"] ].

Definition policy_OK : StateTobaccoPolicy :=
  StateTobaccoPolicy_init
    "Oklahoma" "OK" "none"
    "No statewide restrictions on flavored e-cigarettes"
    [ kw_has_ecig_tax false;
      kw_indoor_vaping_ban false;
      kw_state_t21_law true;
      kw_sources ["Tax Foundation 2025"] ].

Definition policy_OR : StateTobaccoPolicy :=
  StateTobaccoPolicy_init
    "Oregon" "OR" "none"
    "No statewide flavor ban, but many local restrictions"
    [ kw_has_ecig_tax true;
      kw_ecig_tax_rate "65% wholesale";
      kw_ecig_tax_structure "wholesale %";
      kw_indoor_vaping_ban true;
      kw_indoor_ban_details "Comprehensive smoke-free law covering e-cigarettes";
      kw_state_t21_law true;
      kw_recent_changes "Oregon Court of Appeals upheld Washington County's flavored tobacco law (May 2024)";
      kw_local_restrictions ["Washington County and other localities have flavor restrictions"];
      kw_sources ["Tax Foundation 2025"; "Campaign for Tobacco-Free Kids 2024"; "Truth Initiative 2025"] ].

Definition policy_PA : StateTobaccoPolicy :=
  StateTobaccoPolicy_init
    "Pennsylvania" "PA" "none"
    "No statewide restrictions on flavored e-cigarettes"
    [ kw_has_ecig_tax true;
      kw_ecig_tax_rate "40% wholesale";
      kw_ecig_tax_structure "wholesale %";
      kw_indoor_vaping_ban false;
      kw_state_t21_law true;
      kw_sources ["Tax Foundation 2025"] ].

Definition policy_RI : StateTobaccoPolicy :=
  StateTobaccoPolicy_init
    "Rhode Island" "RI" "comprehensive"
    "Comprehensive ban on flavored e-cigarettes except tobacco and menthol, enforced Jan 1, 2025 (made permanent from 2019 executive order)"
    [ kw_flavored_ecig_effective_date "2025-01-01";
      kw_menthol_cig_ban false;
      kw_has_ecig_tax true;
      kw_ecig_tax_rate "10% wholesale (open), $0.50/mL (closed)";
      kw_ecig_tax_structure "hybrid";
      kw_indoor_vaping_ban true;
      kw_indoor_ban_details "Comprehensive smoke-free law covering e-cigarettes";
      kw_state_t21_law true;
      kw_recent_changes "Flavor ban made permanent as of Jan 1, 2025. New e-cig tax enacted Jan 1, 2025.";
      kw_sources ["Tax Foundation 2025"; "VapeRanger 2025"; "Campaign for Tobacco-Free Kids 2024"] ].

Definition policy_SC : StateTobaccoPolicy :=
  StateTobaccoPolicy_init
    "South Carolina" "SC" "none"
    "No statewide restrictions on flavored e-cigarettes"
    [ kw_has_ecig_tax false;
      kw_indoor_vaping_ban false;
      kw_state_t21_law false;
      kw_sources ["Tax Foundation 2025"] ].

Definition policy_SD : StateTobaccoPolicy :=
  StateTobaccoPolicy_init
    "South Dakota" "SD" "none"
    "No statewide restrictions on flavored e-cigarettes"
    [ kw_has_ecig_tax false;
      kw_indoor_vaping_ban false;
      kw_state_t21_law true;
      kw_sources ["Tax Foundation 2025"] ].

Definition policy_TN : StateTobaccoPolicy :=
  StateTobaccoPolicy_init
    "Tennessee" "TN" "none"
    "No statewide restrictions on flavored e-cigarettes"
    [ kw_has_ecig_tax false;
      kw_indoor_vaping_ban false;
      kw_state_t21_law true;
      kw_sources ["Tax Foundation 2025"] ].

Definition policy_TX : StateTobaccoPolicy :=
  StateTobaccoPolicy_init
    "Texas" "TX" "partial"
    "State flavor ban enacted 2025. Additionally, SB 2024 prohibits sale of e-cigarette products made in China and pre-filled with liquid (effective June 2025)"
    [ kw_flavored_ecig_effective_date "2025";
      kw_has_ecig_tax false;
      kw_indoor_vaping_ban false;
      kw_state_t21_law true;
      kw_recent_changes "Flavor ban and China-made product ban enacted 2025";
      kw_sources ["Tax Foundation 2025"; "VapeRanger 2025"] ].

Definition policy_UT : StateTobaccoPolicy :=
  StateTobaccoPolicy_init
    "Utah" "UT" "comprehensive"
    "Comprehensive ban on flavored vapes except tobacco and menthol (effective Jan 1, 2025, upheld by federal judge March 2025)"
    [ kw_flavored_ecig_effective_date "2025-01-01";
      kw_menthol_cig_ban false;
      kw_has_ecig_tax true;
      kw_ecig_tax_rate "56% manufacturer";
      kw_ecig_tax_structure "manufacturer %";
      kw_indoor_vaping_ban true;
      kw_indoor_ban_details "Comprehensive smoke-free law covering e-cigarettes";
      kw_state_t21_law true;
      kw_recent_changes "Flavor ban effective Jan 1, 2025, upheld by federal court March 2025";
      kw_sources ["Tax Foundation 2025"; "VapeRanger 2025"; "Campaign for Tobacco-Free Kids 2024"] ].

Definition policy_VT : StateTobaccoPolicy :=
  StateTobaccoPolicy_init
    "Vermont" "VT" "none"
    "No statewide restrictions on flavored e-cigarettes"
    [ kw_has_ecig_tax true;
      kw_ecig_tax_rate "92% wholesale";
      kw_ecig_tax_structure "wholesale %";
      kw_indoor_vaping_ban true;
      kw_indoor_ban_details "Comprehensive smoke-free law covering e-cigarettes";
      kw_state_t21_law true;
      kw_sources ["Tax Foundation 2025"; "Truth Initiative 2025"] ].

Definition policy_VA : StateTobaccoPolicy :=
  StateTobaccoPolicy_init
    "Virginia" "VA" "none"
    "No statewide restrictions on flavored e-cigarettes"
    [ kw_has_ecig_tax true;
      kw_ecig_tax_rate "$0.11 per mL (increased from $0.066 in 2024)";
      kw_ecig_tax_structure "per mL";
      kw_indoor_vaping_ban false;
      kw_state_t21_law true;
      kw_recent_changes "E-cig tax increased to $0.11/mL in 2024";
      kw_sources ["Tax Foundation 2025"] ].

Definition policy_WA : StateTobaccoPolicy :=
  StateTobaccoPolicy_init
    "Washington" "WA" "partial"
    "State flavor ban on e-cigarettes"
    [ kw_has_ecig_tax true;
      kw_ecig_tax_rate "27% wholesale (open), $0.09/mL (closed)";
      kw_ecig_tax_structure "hybrid";
      kw_indoor_vaping_ban true;
      kw_indoor_ban_details "Comprehensive public vaping ban in indoor workplaces, restaurants, and bars";
      kw_state_t21_law true;
      kw_sources ["Tax Foundation 2025"; "VapeRanger 2025"] ].

Definition policy_WV : StateTobaccoPolicy :=
  StateTobaccoPolicy_init
    "West Virginia" "WV" "none"
    "No statewide restrictions on flavored e-cigarettes"
    [ kw_has_ecig_tax true;
      kw_ecig_tax_rate "17.5% manufacturer (open), $0.075/mL (closed)";
      kw_ecig_tax_structure "hybrid";
      kw_indoor_vaping_ban false;
      kw_state_t21_law true;
      kw_sources ["Tax Foundation 2025"] ].

Definition policy_WI : StateTobaccoPolicy :=
  StateTobaccoPolicy_init
    "Wisconsin" "WI" "partial"
    "Similar law to North Carolina requiring FDA-authorized products, set for Sep 1, 2025 (may be subject to legal challenges)"
    [ kw_flavored_ecig_effective_date "2025-09-01";
      kw_has_ecig_tax true;
      kw_ecig_tax_rate "5¢ per mL";
      kw_ecig_tax_structure "per mL";
      kw_indoor_vaping_ban false;
      kw_state_t21_law true;
      kw_recent_changes "FDA-authorized product requirement scheduled for Sep 2025, facing legal challenges";
      kw_sources ["Tax Foundation 2025"; "VapeRanger 2025"] ].

Definition policy_WY : StateTobaccoPolicy :=
  StateTobaccoPolicy_init
    "Wyoming" "WY" "none"
    "No statewide restrictions on flavored e-cigarettes"
    [ kw_has_ecig_tax true;
      kw_ecig_tax_rate "15% wholesale";
      kw_ecig_tax_structure "wholesale %";
      kw_indoor_vaping_ban false;
      kw_state_t21_law true;
      kw_sources ["Tax Foundation 2025"] ].

Definition policy_DC : StateTobaccoPolicy :=
  StateTobaccoPolicy_init
    "District of Columbia" "DC" "comprehensive"
    "Comprehensive flavor restrictions on e-cigarettes"
    [ kw_has_ecig_tax true;
      kw_ecig_tax_rate "96% wholesale";
      kw_ecig_tax_structure "wholesale %";
      kw_indoor_vaping_ban true;
      kw_state_t21_law true;
      kw_sources ["Tax Foundation 2025"; "VapeRanger 2025"] ].

Definition STATES : list StateTobaccoPolicy :=
  [ policy_AL; policy_AK; policy_AZ; policy_AR; policy_CA; policy_CO;
    policy_CT; policy_DE; policy_FL; policy_GA; policy_HI; policy_ID;
    policy_IL; policy_IN; policy_IA; policy_KS; policy_KY; policy_LA;
    policy_ME; policy_MD; policy_MA; policy_MI; policy_MN; policy_MS;
    policy_MO; policy_MT; policy_NE; policy_NV; policy_NH; policy_NJ;
    policy_NM; policy_NY; policy_NC; policy_ND; policy_OH; policy_OK;
    policy_OR; policy_PA; policy_RI; policy_SC; policy_SD; policy_TN;
    policy_TX; policy_UT; policy_VT; policy_VA; policy_WA; policy_WV;
    policy_WI; policy_WY; policy_DC ].

(** ** JSON values

    The values [json.dump] accepts here and [json.load] returns: [None],
    [bool], [int], [str], [list] and [dict] with [str] keys.  A [dict] keeps
    its insertion order, so it is an association list. *)
#[local] Unset Elimination Schemes.
Inductive json : Type :=
  | JNull
  | JBool (b : bool)
  | JInt (n : Z)
  | JString (s : string)
  | JArray (items : list json)
  | JObject (members : list (string * json)).

(** [d[k]] when [d] is a dict. *)
Fixpoint assoc_get (k : string) (m : list (string * json)) : option json :=
  match m with
  | [] => None
  | (k', v) :: m' => if String.eqb k k' then Some v else assoc_get k m'
  end.

Definition dict_get (k : string) (d : json) : option json :=
  match d with
  | JObject m => assoc_get k m
  | _ => None
  end.

(** [d[k] = v]: an existing key keeps its position, a new key goes last. *)
Fixpoint dict_set (k : string) (v : json) (m : list (string * json))
    : list (string * json) :=
  match m with
  | [] => [(k, v)]
  | (k', v') :: m' =>
      if String.eqb k k' then (k', v) :: m' else (k', v') :: dict_set k v m'
  end.

Definition dict_keys (d : json) : option (list string) :=
  match d with
  | JObject m => Some (fst <$> m)
  | _ => None
  end.

Definition json_of_optional (o : option string) : json :=
  match o with
  | Some s => JString s
  | None => JNull
  end.

Definition json_of_strings (l : list string) : json := JArray (JString <$> l).

(** [to_dict] is [asdict(self)]: one entry per field, in declaration order,
    lists copied element by element. *)
Definition to_dict (s : StateTobaccoPolicy) : json :=
  JObject
    [ ("state", JString (state s));
      ("state_abbr", JString (state_abbr s));
      ("flavored_ecig_ban", JString (flavored_ecig_ban s));
      ("flavored_ecig_details", JString (flavored_ecig_details s));
      ("flavored_ecig_effective_date", json_of_optional (flavored_ecig_effective_date s));
      ("menthol_cig_ban", JBool (menthol_cig_ban s));
      ("menthol_ban_details", JString (menthol_ban_details s));
      ("menthol_effective_date", json_of_optional (menthol_effective_date s));
      ("has_ecig_tax", JBool (has_ecig_tax s));
      ("ecig_tax_rate", JString (ecig_tax_rate s));
      ("ecig_tax_structure", JString (ecig_tax_structure s));
      ("indoor_vaping_ban", JBool (indoor_vaping_ban s));
      ("indoor_ban_details", JString (indoor_ban_details s));
      ("minimum_age", JInt (minimum_age s));
      ("state_t21_law", JBool (state_t21_law s));
      ("licensing_required", JBool (licensing_required s));
      ("license_fee", JString (license_fee s));
      ("local_restrictions", json_of_strings (local_restrictions s));
      ("recent_changes", JString (recent_changes s));
      ("sources", json_of_strings (sources s)) ].

(** The [data] dictionary built by [export_to_json]. *)
Definition export_metadata : json :=
  JObject
    [ ("last_updated", JString "2024-12-24");
      ("data_version", JString "1.0");
      ("sources",
       json_of_strings
         [ "Truth Initiative Flavored Tobacco Restrictions Q2 2025";
           "Campaign for Tobacco-Free Kids State Policy Database 2024";
           "Tax Foundation Vaping Taxes by State 2025";
           "CDC STATE System";
           "FDA Tobacco 21 Resources";
           "State Legislative Sources" ]);
      ("notes",
       JString "Federal T21 law applies to all states. Data current as of December 2024/January 2025.") ].

Definition export_data : json :=
  JObject
    [ ("metadata", export_metadata);
      ("states", JArray (to_dict <$> STATES)) ].

(** ** [json.dump(data, f, indent=2)]

    Text is ASCII only ([ensure_ascii] is on by default): a character
    outside [' '..'~'], a quote or a backslash is written as an escape. *)

Definition dquote : ascii := "034"%char.
Definition backslash : ascii := "092"%char.
Definition newline : ascii := "010"%char.

Definition byte_of (c : ascii) : Z := Z.of_N (N_of_ascii c).
Definition chr (n : Z) : ascii := ascii_of_N (Z.to_N n).

Definition hex_digit (n : Z) : ascii :=
  if n <? 10 then chr (48 + n) else chr (87 + n).

(** ['\\u{0:04x}'.format(n)] *)
Definition escape_u (n : Z) : string :=
  String backslash (String "u"
    (String (hex_digit (Z.land (Z.shiftr n 12) 15))
    (String (hex_digit (Z.land (Z.shiftr n 8) 15))
    (String (hex_digit (Z.land (Z.shiftr n 4) 15))
    (String (hex_digit (Z.land n 15)) EmptyString))))).

(** The replacement of one code point: the short escapes of [ESCAPE_DCT],
    the character itself when printable, [\uXXXX] otherwise, as a surrogate
    pair above the basic plane. *)
Definition escape_code_point (n : Z) : string :=
  if n =? 34 then String backslash (String dquote EmptyString)
  else if n =? 92 then String backslash (String backslash EmptyString)
  else if n =? 10 then String backslash "n"
  else if n =? 13 then String backslash "r"
  else if n =? 9 then String backslash "t"
  else if n =? 12 then String backslash "f"
  else if n =? 8 then String backslash "b"
  else if (32 <=? n) && (n <=? 126) then String (chr n) EmptyString
  else if n <? 65536 then escape_u n
  else
    let m := n - 65536 in
    escape_u (Z.lor 55296 (Z.land (Z.shiftr m 10) 1023))
    ++ escape_u (Z.lor 56320 (Z.land m 1023)).

Definition cont (c : ascii) : Z := Z.land (byte_of c) 63.

(** The body of a string literal.  The code points are read back from the
    UTF-8 bytes; a byte that starts no well-formed sequence, which no [str]
    gives, is escaped on its own. *)
Fixpoint encode_body (s : string) : string :=
  match s with
  | EmptyString => EmptyString
  | String c r =>
      let n := byte_of c in
      if n <? 128 then escape_code_point n ++ encode_body r
      else if (192 <=? n) && (n <? 224) then
        match r with
        | String c2 r2 =>
            escape_code_point (Z.lor (Z.shiftl (Z.land n 31) 6) (cont c2))
            ++ encode_body r2
        | _ => escape_code_point n ++ encode_body r
        end
      else if (224 <=? n) && (n <? 240) then
        match r with
        | String c2 (String c3 r3) =>
            escape_code_point
              (Z.lor (Z.shiftl (Z.land n 15) 12)
                 (Z.lor (Z.shiftl (cont c2) 6) (cont c3)))
            ++ encode_body r3
        | _ => escape_code_point n ++ encode_body r
        end
      else if (240 <=? n) && (n <? 248) then
        match r with
        | String c2 (String c3 (String c4 r4)) =>
            escape_code_point
              (Z.lor (Z.shiftl (Z.land n 7) 18)
                 (Z.lor (Z.shiftl (cont c2) 12)
                    (Z.lor (Z.shiftl (cont c3) 6) (cont c4))))
            ++ encode_body r4
        | _ => escape_code_point n ++ encode_body r
        end
      else escape_code_point n ++ encode_body r
  end.

Definition encode_basestring_ascii (s : string) : string :=
  String dquote (encode_body s ++ String dquote EmptyString).

(** [str(n)] for an [int]. *)
Fixpoint digits_go (fuel : nat) (n : Z) (acc : string) : string :=
  match fuel with
  | O => acc
  | S fuel' =>
      let acc' := String (chr (48 + n mod 10)) acc in
      if n <? 10 then acc' else digits_go fuel' (n / 10) acc'
  end.

Definition str_int (n : Z) : string :=
  if n <? 0 then String "-" (digits_go (Z.to_nat (Z.log2 (- n)) + 1) (- n) EmptyString)
  else digits_go (Z.to_nat (Z.log2 n) + 1) n EmptyString.

Fixpoint spaces (n : nat) : string :=
  match n with
  | O => EmptyString
  | S n' => String " " (spaces n')
  end.

Definition newline_indent (indent level : nat) : string :=
  String newline (spaces (indent * level)).

(** [JSONEncoder(indent=indent).encode]: items one per line, separated by
    [","], keys followed by [": "], empty containers as [[]] and [{}]. *)
Fixpoint encode (indent level : nat) (v : json) : string :=
  match v with
  | JNull => "null"
  | JBool true => "true"
  | JBool false => "false"
  | JInt n => str_int n
  | JString s => encode_basestring_ascii s
  | JArray [] => "[]"
  | JArray (x :: xs) =>
      "[" ++ newline_indent indent (S level) ++ encode indent (S level) x
      ++ (fix rest (l : list json) : string :=
            match l with
            | [] => EmptyString
            | y :: ys =>
                "," ++ newline_indent indent (S level)
                ++ encode indent (S level) y ++ rest ys
            end) xs
      ++ newline_indent indent level ++ "]"
  | JObject [] => "{}"
  | JObject ((k, x) :: xs) =>
      "{" ++ newline_indent indent (S level)
      ++ encode_basestring_ascii k ++ ": " ++ encode indent (S level) x
      ++ (fix rest (l : list (string * json)) : string :=
            match l with
            | [] => EmptyString
            | (k', y) :: ys =>
                "," ++ newline_indent indent (S level)
                ++ encode_basestring_ascii k' ++ ": "
                ++ encode indent (S level) y ++ rest ys
            end) xs
      ++ newline_indent indent level ++ "}"
  end.

Definition json_dumps (indent : nat) (v : json) : string := encode indent 0 v.
(** ** [json.load]

    The decoder for the documents above: whitespace between tokens, the
    literals [null], [true] and [false], integers, strings with their
    escapes, arrays and objects.  [None] stands for a [JSONDecodeError], and
    also for the inputs this model has no value for (a number with a
    fraction or an exponent, a surrogate that is not part of a pair). *)

Definition is_ws (c : ascii) : bool :=
  let n := byte_of c in (n =? 32) || (n =? 9) || (n =? 10) || (n =? 13).

Fixpoint skip_ws (s : string) : string :=
  match s with
  | String c r => if is_ws c then skip_ws r else s
  | EmptyString => s
  end.

Fixpoint strip_prefix (p s : string) : option string :=
  match p, s with
  | EmptyString, _ => Some s
  | String a p', String b s' => if Ascii.eqb a b then strip_prefix p' s' else None
  | String _ _, EmptyString => None
  end.

Definition hex_value (c : ascii) : option Z :=
  let n := byte_of c in
  if (48 <=? n) && (n <=? 57) then Some (n - 48)
  else if (97 <=? n) && (n <=? 102) then Some (n - 87)
  else if (65 <=? n) && (n <=? 70) then Some (n - 55)
  else None.

Definition hex4 (a b c d : ascii) : option Z :=
  x1 ← hex_value a; x2 ← hex_value b; x3 ← hex_value c; x4 ← hex_value d;
  Some (((x1 * 16 + x2) * 16 + x3) * 16 + x4).

Definition utf8_encode (n : Z) : string :=
  if n <? 128 then String (chr n) EmptyString
  else if n <? 2048 then
    String (chr (Z.lor 192 (Z.shiftr n 6)))
      (String (chr (Z.lor 128 (Z.land n 63))) EmptyString)
  else if n <? 65536 then
    String (chr (Z.lor 224 (Z.shiftr n 12)))
      (String (chr (Z.lor 128 (Z.land (Z.shiftr n 6) 63)))
         (String (chr (Z.lor 128 (Z.land n 63))) EmptyString))
  else
    String (chr (Z.lor 240 (Z.shiftr n 18)))
      (String (chr (Z.lor 128 (Z.land (Z.shiftr n 12) 63)))
         (String (chr (Z.lor 128 (Z.land (Z.shiftr n 6) 63)))
            (String (chr (Z.lor 128 (Z.land n 63))) EmptyString))).

(** The character a one-letter escape stands for. *)
Definition unescape (n : Z) : option ascii :=
  if n =? 34 then Some dquote
  else if n =? 92 then Some backslash
  else if n =? 47 then Some "/"%char
  else if n =? 98 then Some (chr 8)
  else if n =? 102 then Some (chr 12)
  else if n =? 110 then Some newline
  else if n =? 114 then Some (chr 13)
  else if n =? 116 then Some (chr 9)
  else None.

Definition is_high_surrogate (n : Z) : bool := (55296 <=? n) && (n <=? 56319).
Definition is_low_surrogate (n : Z) : bool := (56320 <=? n) && (n <=? 57343).

(** The text after an opening quote, up to the closing one: the decoded
    string and what follows it.  [hi] is a high surrogate just read, waiting
    for its low half. *)
Fixpoint scan_string (s : string) (hi : option Z) : option (string * string) :=
  match s with
  | EmptyString => None
  | String c r =>
      let n := byte_of c in
      if n =? 34 then
        match hi with
        | None => Some (EmptyString, r)
        | Some _ => None
        end
      else if n =? 92 then
        match r with
        | EmptyString => None
        | String e r1 =>
            if byte_of e =? 117 then
              match r1 with
              | String h1 (String h2 (String h3 (String h4 r2))) =>
                  match hex4 h1 h2 h3 h4, hi with
                  | None, _ => None
                  | Some cp, Some h =>
                      if is_low_surrogate cp then
                        '(t, rest) ← scan_string r2 None;
                        Some (utf8_encode
                                (65536 + Z.shiftl (h - 55296) 10 + (cp - 56320))
                              ++ t, rest)
                      else None
                  | Some cp, None =>
                      if is_high_surrogate cp then scan_string r2 (Some cp)
                      else if is_low_surrogate cp then None
                      else
                        '(t, rest) ← scan_string r2 None;
                        Some (utf8_encode cp ++ t, rest)
                  end
              | _ => None
              end
            else
              match hi, unescape (byte_of e) with
              | None, Some ch =>
                  '(t, rest) ← scan_string r1 None; Some (String ch t, rest)
              | _, _ => None
              end
        end
      else if n <? 32 then None
      else
        match hi with
        | None => '(t, rest) ← scan_string r None; Some (String c t, rest)
        | Some _ => None
        end
  end.

Definition is_digit (c : ascii) : bool :=
  let n := byte_of c in (48 <=? n) && (n <=? 57).

Fixpoint scan_digits (s : string) (acc : Z) : Z * string :=
  match s with
  | String c r =>
      if is_digit c then scan_digits r (acc * 10 + (byte_of c - 48)) else (acc, s)
  | EmptyString => (acc, s)
  end.

(** An integer: an optional minus sign, then either a lone zero or a
    nonzero digit and more digits; not followed by a fraction or an
    exponent. *)
Definition scan_int (s : string) : option (Z * string) :=
  let '(neg, s1) :=
    match s with
    | String c r => if byte_of c =? 45 then (true, r) else (false, s)
    | EmptyString => (false, s)
    end in
  match s1 with
  | EmptyString => None
  | String c r =>
      if negb (is_digit c) then None
      else
        let '(v, rest) :=
          if byte_of c =? 48 then (0, r) else scan_digits r (byte_of c - 48) in
        match rest with
        | String d _ =>
            if (byte_of d =? 46) || (byte_of d =? 101) || (byte_of d =? 69)
            then None
            else Some (if neg then - v else v, rest)
        | EmptyString => Some (if neg then - v else v, rest)
        end
  end.

Definition starts_with (n : Z) (s : string) : option string :=
  match s with
  | String c r => if byte_of c =? n then Some r else None
  | EmptyString => None
  end.

(** [scan_once], [JSONArray] and [JSONObject].  Each call spends one unit
    of [fuel]; a text of [n] characters needs at most [n]. *)
Fixpoint parse_value (fuel : nat) (s : string) : option (json * string) :=
  match fuel with
  | O => None
  | S fuel' =>
      match s with
      | EmptyString => None
      | String c r =>
          let n := byte_of c in
          if n =? 34 then
            '(t, rest) ← scan_string r None; Some (JString t, rest)
          else if n =? 123 then
            match starts_with 125 (skip_ws r) with
            | Some rest => Some (JObject [], rest)
            | None => parse_members fuel' (skip_ws r) []
            end
          else if n =? 91 then
            match starts_with 93 (skip_ws r) with
            | Some rest => Some (JArray [], rest)
            | None => parse_items fuel' (skip_ws r) []
            end
          else if n =? 110 then
            rest ← strip_prefix "ull" r; Some (JNull, rest)
          else if n =? 116 then
            rest ← strip_prefix "rue" r; Some (JBool true, rest)
          else if n =? 102 then
            rest ← strip_prefix "alse" r; Some (JBool false, rest)
          else
            '(v, rest) ← scan_int s; Some (JInt v, rest)
      end
  end
with parse_items (fuel : nat) (s : string) (acc : list json)
    : option (json * string) :=
  match fuel with
  | O => None
  | S fuel' =>
      '(v, rest) ← parse_value fuel' s;
      match skip_ws rest with
      | String c r =>
          if byte_of c =? 93 then Some (JArray (rev (v :: acc)), r)
          else if byte_of c =? 44 then parse_items fuel' (skip_ws r) (v :: acc)
          else None
      | EmptyString => None
      end
  end
with parse_members (fuel : nat) (s : string) (acc : list (string * json))
    : option (json * string) :=
  match fuel with
  | O => None
  | S fuel' =>
      r0 ← starts_with 34 s;
      '(k, r1) ← scan_string r0 None;
      r2 ← starts_with 58 (skip_ws r1);
      '(v, r3) ← parse_value fuel' (skip_ws r2);
      match skip_ws r3 with
      | String c r =>
          if byte_of c =? 125 then Some (JObject (dict_set k v acc), r)
          else if byte_of c =? 44 then
            parse_members fuel' (skip_ws r) (dict_set k v acc)
          else None
      | EmptyString => None
      end
  end.

Definition json_loads (s : string) : option json :=
  '(v, rest) ← parse_value (S (String.length s)) (skip_ws s);
  match skip_ws rest with
  | EmptyString => Some v
  | String _ _ => None
  end.

(** ** The process: files and standard output

    What the two reports act on: the files by path, the paths that
    [open(path, 'w')] refuses, and the strings given to [print], oldest
    first (each is followed by a line break on the real stream). *)
Record world : Type := mkWorld {
  files : gmap string string;
  unwritable : gset string;
  stdout : list string
}.

Inductive exn : Type :=
  | OSError (path : string).

Inductive result (A : Type) : Type :=
  | Ok (a : A)
  | Raise (e : exn).
Arguments Ok {A} a.
Arguments Raise {A} e.

(** A computation reads and changes the world, and returns or raises. *)
Definition io (A : Type) : Type := world → result (A * world).

Definition ret {A} (a : A) : io A := λ w, Ok (a, w).

Definition bind {A B} (m : io A) (k : A → io B) : io B :=
  λ w, match m w with
       | Ok (a, w') => k a w'
       | Raise e => Raise e
       end.

Notation "m ;; k" := (bind m (λ _, k))
  (at level 100, k at level 200, right associativity).

Definition print (s : string) : io unit :=
  λ w, Ok (tt, mkWorld (files w) (unwritable w) (stdout w ++ [s])).

(** [with open(path, 'w') as f: f.write(text)]: the file holds [text] and
    nothing else afterwards; a refused path raises before anything is
    written. *)
Definition write_file (path text : string) : io unit :=
  λ w, if decide (path ∈ unwritable w) then Raise (OSError path)
       else Ok (tt, mkWorld (<[path := text]> (files w)) (unwritable w) (stdout w)).

Definition len {A} (l : list A) : Z := Z.of_nat (length l).

Definition export_to_json (filename : string) : io unit :=
  let data := export_data in
  write_file filename (json_dumps 2 data);;
  print ("Exported " ++ str_int (len STATES) ++ " state policies to " ++ filename).

(** [sum(1 for s in STATES if p(s))] *)
Definition py_sum (l : list Z) : Z := fold_left Z.add l 0.

Definition count_where (p : StateTobaccoPolicy → bool) : Z :=
  py_sum ((λ _, 1) <$> List.filter p STATES).

(** The local variables of [generate_summary_stats]. *)
Definition total_states : Z := len STATES.
Definition comprehensive_ban : Z :=
  count_where (λ s, String.eqb (flavored_ecig_ban s) "comprehensive").
Definition partial_ban : Z :=
  count_where (λ s, String.eqb (flavored_ecig_ban s) "partial").
Definition no_ban : Z :=
  count_where (λ s, String.eqb (flavored_ecig_ban s) "none").
Definition menthol_bans : Z := count_where menthol_cig_ban.
Definition with_tax : Z := count_where has_ecig_tax.
Definition without_tax : Z := total_states - with_tax.
Definition indoor_bans : Z := count_where indoor_vaping_ban.

Fixpoint str_mul (s : string) (n : nat) : string :=
  match n with
  | O => EmptyString
  | S n' => s ++ str_mul s n'
  end.

Definition rule : string := str_mul "=" 60.
Definition nl : string := String newline EmptyString.

Definition generate_summary_stats : io unit :=
  print (nl ++ rule);;
  print "STATE VAPING & TOBACCO POLICY SUMMARY";;
  print (rule ++ nl);;
  print ("Total jurisdictions: " ++ str_int total_states);;
  print EmptyString;;
  print "FLAVORED E-CIGARETTE RESTRICTIONS:";;
  print ("  Comprehensive bans: " ++ str_int comprehensive_ban ++ " states");;
  print ("  Partial restrictions: " ++ str_int partial_ban ++ " states");;
  print ("  No restrictions: " ++ str_int no_ban ++ " states");;
  print EmptyString;;
  print "MENTHOL CIGARETTE BANS:";;
  print ("  States with menthol bans: " ++ str_int menthol_bans);;
  print "  (Massachusetts, California)";;
  print EmptyString;;
  print "E-CIGARETTE EXCISE TAXES:";;
  print ("  States with e-cig tax: " ++ str_int with_tax);;
  print ("  States without e-cig tax: " ++ str_int without_tax);;
  print EmptyString;;
  print "INDOOR VAPING RESTRICTIONS:";;
  print ("  States with comprehensive indoor vaping bans: " ++ str_int indoor_bans);;
  print EmptyString;;
  print (rule ++ nl).

(** The entry point: the summary, then the export to the default path. *)
Definition main : io unit :=
  generate_summary_stats;;
  export_to_json "state_policies.json".

(** A process started with no file, no refused path and nothing printed. *)
Definition initial_world : world := mkWorld ∅ ∅ [].

(** What a computation prints when started from [initial_world]. *)
Definition printed (m : io unit) : list string :=
  match m initial_world with
  | Ok (_, w) => stdout w
  | Raise _ => []
  end.

(** The text the exporter writes. *)
Definition exported_text : string := json_dumps 2 export_data.

(** ** Vocabularies named by the specification *)

(** The two-letter postal codes of the fifty states, in the order of the
    state names. *)
Definition US_STATE_POSTAL_CODES : list string :=
  [ "AL"; "AK"; "AZ"; "AR"; "CA"; "CO"; "CT"; "DE"; "FL"; "GA";
    "HI"; "ID"; "IL"; "IN"; "IA"; "KS"; "KY"; "LA"; "ME"; "MD";
    "MA"; "MI"; "MN"; "MS"; "MO"; "MT"; "NE"; "NV"; "NH"; "NJ";
    "NM"; "NY"; "NC"; "ND"; "OH"; "OK"; "OR"; "PA"; "RI"; "SC";
    "SD"; "TN"; "TX"; "UT"; "VT"; "VA"; "WA"; "WV"; "WI"; "WY" ].

Definition FLAVOR_BAN_CATEGORIES : list string :=
  [ "comprehensive"; "partial"; "none" ].

Definition TAX_STRUCTURES : list string :=
  [ "wholesale %"; "per mL"; "retail %"; "per cartridge"; "manufacturer %"; "hybrid" ].

(** ** Documents the decoder gives back unchanged

    The strings of a [str] are well-formed UTF-8: each code point in its
    shortest form, none of them a surrogate, none above U+10FFFF.  A [dict]
    has each key once. *)

Definition is_cont (c : ascii) : bool :=
  let n := byte_of c in (128 <=? n) && (n <? 192).

Definition decode2 (c1 c2 : ascii) : Z :=
  Z.lor (Z.shiftl (Z.land (byte_of c1) 31) 6) (cont c2).

Definition decode3 (c1 c2 c3 : ascii) : Z :=
  Z.lor (Z.shiftl (Z.land (byte_of c1) 15) 12)
    (Z.lor (Z.shiftl (cont c2) 6) (cont c3)).

Definition decode4 (c1 c2 c3 c4 : ascii) : Z :=
  Z.lor (Z.shiftl (Z.land (byte_of c1) 7) 18)
    (Z.lor (Z.shiftl (cont c2) 12)
       (Z.lor (Z.shiftl (cont c3) 6) (cont c4))).

Definition is_surrogate (n : Z) : bool := (55296 <=? n) && (n <=? 57343).

Fixpoint valid_utf8 (s : string) : bool :=
  match s with
  | EmptyString => true
  | String c r =>
      let n := byte_of c in
      if n <? 128 then valid_utf8 r
      else if (194 <=? n) && (n <? 224) then
        match r with
        | String c2 r2 => is_cont c2 && valid_utf8 r2
        | _ => false
        end
      else if (224 <=? n) && (n <? 240) then
        match r with
        | String c2 (String c3 r3) =>
            is_cont c2 && is_cont c3
            && (2048 <=? decode3 c c2 c3) && negb (is_surrogate (decode3 c c2 c3))
            && valid_utf8 r3
        | _ => false
        end
      else if (240 <=? n) && (n <? 245) then
        match r with
        | String c2 (String c3 (String c4 r4)) =>
            is_cont c2 && is_cont c3 && is_cont c4
            && (65536 <=? decode4 c c2 c3 c4) && (decode4 c c2 c3 c4 <=? 1114111)
            && valid_utf8 r4
        | _ => false
        end
      else false
  end.

Fixpoint wf_json (v : json) : bool :=
  match v with
  | JNull | JBool _ | JInt _ => true
  | JString s => valid_utf8 s
  | JArray l => forallb wf_json l
  | JObject m =>
      forallb (λ kv, let '(k, x) := kv in valid_utf8 k && wf_json x) m
      && bool_decide (NoDup (fst <$> m))
  end.

(** The record seen as a document is well formed when its texts are. *)
Definition valid_record (s : StateTobaccoPolicy) : bool :=
  valid_utf8 (state s) && valid_utf8 (state_abbr s)
  && valid_utf8 (flavored_ecig_ban s) && valid_utf8 (flavored_ecig_details s)
  && from_option valid_utf8 true (flavored_ecig_effective_date s)
  && valid_utf8 (menthol_ban_details s)
  && from_option valid_utf8 true (menthol_effective_date s)
  && valid_utf8 (ecig_tax_rate s) && valid_utf8 (ecig_tax_structure s)
  && valid_utf8 (indoor_ban_details s) && valid_utf8 (license_fee s)
  && forallb valid_utf8 (local_restrictions s)
  && valid_utf8 (recent_changes s)
  && forallb valid_utf8 (sources s).

(** The data dictionary of the exporter for a catalogue [l]. *)
Definition export_data_of (l : list StateTobaccoPolicy) : json :=
  JObject [ ("metadata", export_metadata); ("states", JArray (to_dict <$> l)) ].

(** The parts of [encode] for the items after the first. *)
Definition encode_items (indent level : nat) : list json → string :=
  fix rest (l : list json) : string :=
    match l with
    | [] => EmptyString
    | y :: ys =>
        "," ++ newline_indent indent (S level)
        ++ encode indent (S level) y ++ rest ys
    end.

Definition encode_members (indent level : nat) : list (string * json) → string :=
  fix rest (l : list (string * json)) : string :=
    match l with
    | [] => EmptyString
    | (k', y) :: ys =>
        "," ++ newline_indent indent (S level)
        ++ encode_basestring_ascii k' ++ ": "
        ++ encode indent (S level) y ++ rest ys
    end.

(** The calls of the decoder a value takes. *)
Fixpoint size (v : json) : nat :=
  match v with
  | JArray l => 2 + fold_right (λ x n, size x + n)%nat 0%nat l
  | JObject m => 2 + fold_right (λ kv n, size (snd kv) + n)%nat 0%nat m
  | _ => 1
  end.

(** What may follow a value in a document: nothing, a comma, a line
    break or a closing bracket. *)
Definition delimited (rest : string) : bool :=
  match rest with
  | EmptyString => true
  | String c _ =>
      let n := byte_of c in (n =? 44) || (n =? 10) || (n =? 93) || (n =? 125)
  end.

(** Code points that a [str] holds, and the first bytes of their two-,
    three- and four-byte forms. *)
Definition is_scalar (n : Z) : bool :=
  (0 <=? n) && (n <=? 1114111) && negb (is_surrogate n).

Definition lead2 (c : ascii) : bool := (194 <=? byte_of c) && (byte_of c <? 224).
Definition lead3 (c : ascii) : bool := (224 <=? byte_of c) && (byte_of c <? 240).
Definition lead4 (c : ascii) : bool := (240 <=? byte_of c) && (byte_of c <? 245).

(** The decoder reads [v] back from its text, followed by anything that
    may follow a value, with the fuel its size asks for. *)
Definition reads_back (v : json) : Prop :=
  ∀ (indent level fuel : nat) (rest : string),
    (size v ≤ fuel)%nat → delimited rest = true →
    parse_value fuel (encode indent level v ++ rest) = Some (v, rest).

(** What follows the first item of an array, up to the rest of the text. *)
Definition items_tail (indent level : nat) (xs : list json) (rest : string) : string :=
  encode_items indent level xs ++ newline_indent indent level ++ String "]" rest.

Definition members_tail (indent level : nat) (xs : list (string * json))
    (rest : string) : string :=
  encode_members indent level xs ++ newline_indent indent level ++ String "}" rest.

(** A text that starts a value: its first character is no whitespace and
    closes no container. *)
Definition starts_value (s : string) : Prop :=
  ∃ c r, s = String c r ∧ is_ws c = false
         ∧ byte_of c ≠ 93 ∧ byte_of c ≠ 125.

(** The characters of an exported text: printable ASCII and line breaks. *)
Definition is_plain (c : ascii) : bool :=
  let n := byte_of c in ((32 <=? n) && (n <=? 126)) || (n =? 10).

Fixpoint all_chars (p : ascii → bool) (s : string) : bool :=
  match s with
  | EmptyString => true
  | String c r => p c && all_chars p r
  end.

(** Finite checks, for facts about bytes and code points. *)
Definition all_ascii (P : ascii → bool) : bool :=
  forallb (λ n, P (ascii_of_nat n)) (seq 0 256).

Fixpoint all_from (n : nat) (start : Z) (P : Z → bool) : bool :=
  match n with
  | O => true
  | S n' => if P start then all_from n' (start + 1) P else false
  end.

(** * Properties *)

(** ** The catalogue *)

(** Closed facts about the literal catalogue are decided by evaluation. *)
Ltac by_evaluation :=
  apply (bool_decide_unpack _); vm_compute; exact I.

Lemma US_STATE_POSTAL_CODES_fifty :
  length US_STATE_POSTAL_CODES = 50%nat ∧ NoDup US_STATE_POSTAL_CODES.
Proof. split; [reflexivity | by_evaluation]. Qed.

(** C1: the catalogue has exactly 51 records, no abbreviation occurs twice,
    and the set of abbreviations is the set of the fifty state postal codes
    together with DC. *)
Theorem catalog_abbreviations :
  length STATES = 51%nat
  ∧ NoDup (state_abbr <$> STATES)
  ∧ list_to_set (state_abbr <$> STATES)
    =@{gset string} list_to_set (US_STATE_POSTAL_CODES ++ ["DC"]).
Proof.
  split; [reflexivity |].
  split; by_evaluation.
Qed.

(** C4: every record's [flavored_ecig_ban] is one of the three categories,
    and the three counts of the summary reporter add up to 51. *)
Theorem flavored_ban_categories :
  Forall (λ s, flavored_ecig_ban s ∈ FLAVOR_BAN_CATEGORIES) STATES
  ∧ comprehensive_ban + partial_ban + no_ban = 51.
Proof. split; [by_evaluation | reflexivity]. Qed.

(** C8: every record of the catalogue cites at least one source. *)
Theorem sources_nonempty :
  Forall (λ s, sources s ≠ []) STATES.
Proof. by_evaluation. Qed.

(** C9: a record with [has_ecig_tax] set names its tax structure, from the
    six known structures; the rate text is free of that rule: the Alaska and
    Iowa records have no state tax and still a rate description. *)
Theorem ecig_tax_structure_vocabulary :
  (∀ s, s ∈ STATES → has_ecig_tax s = true →
        ecig_tax_structure s ≠ EmptyString
        ∧ ecig_tax_structure s ∈ TAX_STRUCTURES)
  ∧ (policy_AK ∈ STATES ∧ state policy_AK = "Alaska"
     ∧ has_ecig_tax policy_AK = false ∧ ecig_tax_rate policy_AK ≠ EmptyString)
  ∧ (policy_IA ∈ STATES ∧ state policy_IA = "Iowa"
     ∧ has_ecig_tax policy_IA = false ∧ ecig_tax_rate policy_IA ≠ EmptyString).
Proof.
  split.
  - assert (H : Forall (λ s, has_ecig_tax s = true →
                  ecig_tax_structure s ≠ EmptyString
                  ∧ ecig_tax_structure s ∈ TAX_STRUCTURES) STATES)
      by by_evaluation.
    intros s Hs. exact (proj1 (Forall_forall _ _) H s Hs).
  - split; (split; [by_evaluation |]); (split; [reflexivity |]);
      (split; [reflexivity | discriminate]).
Qed.

Lemma ecig_tax_structure_vocabulary_witness :
  policy_CA ∈ STATES ∧ has_ecig_tax policy_CA = true
  ∧ ecig_tax_structure policy_CA ≠ EmptyString
  ∧ ecig_tax_structure policy_CA ∈ TAX_STRUCTURES.
Proof.
  assert (Hin : policy_CA ∈ STATES) by (apply (bool_decide_unpack _); vm_compute; exact I).
  split; [exact Hin |].
  split; [reflexivity |].
  exact (proj1 ecig_tax_structure_vocabulary policy_CA Hin eq_refl).
Defined.

(** ** The summary report *)

(** The report never raises, leaves the files alone and appends the same
    lines to the output whatever was printed before. *)
Lemma generate_summary_stats_run (w : world) :
  generate_summary_stats w
  = Ok (tt, mkWorld (files w) (unwritable w)
              (stdout w ++ printed generate_summary_stats)).
Proof.
  lazy beta iota zeta delta
    [generate_summary_stats bind print files unwritable stdout].
  rewrite <- !app_assoc. reflexivity.
Qed.

(** C2, as the code has it: the report prints 7 as the number of
    comprehensive bans and 51 as the number of jurisdictions. *)
Theorem summary_prints_comprehensive_and_total :
  comprehensive_ban = 7 ∧ total_states = 51
  ∧ ∀ w : world, ∃ (w' : world) (lines : list string),
      generate_summary_stats w = Ok (tt, w')
      ∧ stdout w' = (stdout w ++ lines)%list
      ∧ lines !! 3%nat = Some "Total jurisdictions: 51"
      ∧ lines !! 6%nat = Some "  Comprehensive bans: 7 states".
Proof.
  split; [reflexivity |]. split; [reflexivity |].
  intros w. eexists _, _. split; [apply generate_summary_stats_run |].
  split; [reflexivity |]. split; reflexivity.
Qed.

(** C2, as the specification words it, fails: the count of comprehensive
    bans is 7, so no line of the report gives it as 6. *)
Lemma summary_comprehensive_count_is_not_6 :
  comprehensive_ban = 7
  ∧ (comprehensive_ban =? 6) = false
  ∧ ("  Comprehensive bans: 6 states" ∉ printed generate_summary_stats)
  ∧ (state_abbr <$> List.filter
       (λ s, String.eqb (flavored_ecig_ban s) "comprehensive") STATES)
    = ["CA"; "MA"; "NJ"; "NY"; "RI"; "UT"; "DC"].
Proof.
  split; [reflexivity |]. split; [reflexivity |].
  split; [by_evaluation | reflexivity].
Qed.

(** C10: the records with [menthol_cig_ban] set are those of California and
    Massachusetts and no other, so the report prints 2 as their number, right
    before the fixed line that names the two states. *)
Theorem menthol_bans_are_MA_and_CA :
  List.filter menthol_cig_ban STATES = [policy_CA; policy_MA]
  ∧ state <$> [policy_MA; policy_CA] = ["Massachusetts"; "California"]
  ∧ menthol_bans = 2
  ∧ ∀ w : world, ∃ (w' : world) (lines : list string),
      generate_summary_stats w = Ok (tt, w')
      ∧ stdout w' = (stdout w ++ lines)%list
      ∧ lines !! 11%nat = Some "  States with menthol bans: 2"
      ∧ lines !! 12%nat = Some "  (Massachusetts, California)".
Proof.
  split; [reflexivity |]. split; [reflexivity |]. split; [reflexivity |].
  intros w. eexists _, _. split; [apply generate_summary_stats_run |].
  split; [reflexivity |]. split; reflexivity.
Qed.

(** ** The JSON export *)

(** Reading the exported text back gives the dictionary it was made from. *)
Lemma json_loads_exported_text : json_loads exported_text = Some export_data.
Proof. vm_compute. reflexivity. Qed.

(** On a path that can be opened the export returns: the file then holds
    the exported text and one line is printed. *)
Lemma export_to_json_run (filename : string) (w : world) :
  filename ∉ unwritable w →
  export_to_json filename w
  = Ok (tt, mkWorld (<[filename := exported_text]> (files w)) (unwritable w)
              (stdout w ++ ["Exported 51 state policies to " ++ filename])).
Proof.
  intros Hw. unfold export_to_json, bind, write_file, print.
  destruct (decide (filename ∈ unwritable w)) as [Hin | _]; [contradiction |].
  reflexivity.
Qed.


Lemma export_then_read (filename : string) (w : world) :
  filename ∉ unwritable w →
  ∃ w', export_to_json filename w = Ok (tt, w')
        ∧ files w' !! filename = Some exported_text
        ∧ unwritable w' = unwritable w.
Proof.
  intros Hw. eexists. split; [apply export_to_json_run, Hw |].
  split; [apply lookup_insert_eq | reflexivity].
Qed.

Lemma to_dict_state_abbr (l : list StateTobaccoPolicy) (i : nat) :
  (to_dict <$> l) !! i ≫= dict_get "state_abbr"
  = (λ s, JString (state_abbr s)) <$> l !! i.
Proof.
  rewrite list_lookup_fmap. destruct (l !! i) as [s |]; reflexivity.
Qed.

Lemma dict_get_states : dict_get "states" export_data = Some (JArray (to_dict <$> STATES)).
Proof. reflexivity. Qed.

(** C3: the exported file, read back, has a [states] array of 51 elements
    whose [state_abbr] values are those of the catalogue, position by
    position. *)
Theorem export_roundtrip_order (filename : string) (w : world) :
  filename ∉ unwritable w →
  ∃ (w' : world) (text : string) (doc : json) (sts : list json),
    export_to_json filename w = Ok (tt, w')
    ∧ files w' !! filename = Some text
    ∧ json_loads text = Some doc
    ∧ dict_get "states" doc = Some (JArray sts)
    ∧ length sts = 51%nat
    ∧ ∀ i : nat,
        sts !! i ≫= dict_get "state_abbr"
        = (λ s, JString (state_abbr s)) <$> STATES !! i.
Proof.
  intros Hw. destruct (export_then_read filename w Hw) as (w' & Hrun & Hfile & _).
  exists w', exported_text, export_data, (to_dict <$> STATES).
  split; [exact Hrun |]. split; [exact Hfile |].
  split; [apply json_loads_exported_text |].
  split; [apply dict_get_states |].
  split; [rewrite length_fmap; reflexivity |].
  intros i. apply to_dict_state_abbr.
Qed.

Lemma export_roundtrip_order_witness :
  ("state_policies.json" ∉ unwritable initial_world)
  ∧ ∃ (w' : world) (text : string) (doc : json) (sts : list json),
      export_to_json "state_policies.json" initial_world = Ok (tt, w')
      ∧ files w' !! "state_policies.json" = Some text
      ∧ json_loads text = Some doc
      ∧ dict_get "states" doc = Some (JArray sts)
      ∧ length sts = 51%nat
      ∧ ∀ i : nat,
          sts !! i ≫= dict_get "state_abbr"
          = (λ s, JString (state_abbr s)) <$> STATES !! i.
Proof.
  split; [apply not_elem_of_empty |].
  apply (export_roundtrip_order "state_policies.json" initial_world).
  apply not_elem_of_empty.
Defined.

Lemma to_dict_dates (s : StateTobaccoPolicy) :
  dict_get "flavored_ecig_effective_date" (to_dict s)
  = Some (json_of_optional (flavored_ecig_effective_date s))
  ∧ dict_get "menthol_effective_date" (to_dict s)
    = Some (json_of_optional (menthol_effective_date s)).
Proof. split; reflexivity. Qed.

(** No record of the catalogue sets a date to the empty string. *)
Lemma catalog_dates_not_empty :
  Forall (λ s, flavored_ecig_effective_date s ≠ Some EmptyString
               ∧ menthol_effective_date s ≠ Some EmptyString) STATES.
Proof. by_evaluation. Qed.

(** C5: in the exported file, read back, a record whose optional date is
    unset has [null] for that date, as the Alabama record does for
    [flavored_ecig_effective_date]; and no record has the empty string
    there. *)
Theorem export_unset_date_is_null (filename : string) (w : world) :
  filename ∉ unwritable w →
  ∃ (w' : world) (text : string) (doc : json) (sts : list json),
    export_to_json filename w = Ok (tt, w')
    ∧ files w' !! filename = Some text
    ∧ json_loads text = Some doc
    ∧ dict_get "states" doc = Some (JArray sts)
    ∧ (∀ (i : nat) (s : StateTobaccoPolicy), STATES !! i = Some s →
         (flavored_ecig_effective_date s = None →
            sts !! i ≫= dict_get "flavored_ecig_effective_date" = Some JNull)
         ∧ (menthol_effective_date s = None →
            sts !! i ≫= dict_get "menthol_effective_date" = Some JNull))
    ∧ (∀ (i : nat) (d : json), sts !! i = Some d →
         dict_get "flavored_ecig_effective_date" d ≠ Some (JString EmptyString)
         ∧ dict_get "menthol_effective_date" d ≠ Some (JString EmptyString))
    ∧ (STATES !! 0%nat = Some policy_AL
       ∧ state policy_AL = "Alabama"
       ∧ flavored_ecig_effective_date policy_AL = None
       ∧ sts !! 0%nat ≫= dict_get "flavored_ecig_effective_date" = Some JNull).
Proof.
  intros Hw. destruct (export_then_read filename w Hw) as (w' & Hrun & Hfile & _).
  exists w', exported_text, export_data, (to_dict <$> STATES).
  split; [exact Hrun |]. split; [exact Hfile |].
  split; [apply json_loads_exported_text |].
  split; [apply dict_get_states |].
  split; [| split].
  - intros i s Hi. rewrite list_lookup_fmap, Hi. cbn [fmap option_fmap option_map mbind option_bind].
    destruct (to_dict_dates s) as [-> ->].
    split; intros ->; reflexivity.
  - intros i d Hd. apply list_lookup_fmap_Some in Hd as (s & -> & Hs).
    apply list_elem_of_lookup_2 in Hs.
    pose proof (proj1 (Forall_forall _ _) catalog_dates_not_empty s Hs) as [Hf Hm].
    destruct (to_dict_dates s) as [-> ->].
    split; intros Heq.
    + destruct (flavored_ecig_effective_date s); [| discriminate].
      injection Heq as ->. contradiction.
    + destruct (menthol_effective_date s); [| discriminate].
      injection Heq as ->. contradiction.
  - repeat split.
Qed.

Lemma export_unset_date_is_null_witness :
  ("state_policies.json" ∉ unwritable initial_world)
  ∧ ∃ (w' : world) (text : string) (doc : json) (sts : list json),
      export_to_json "state_policies.json" initial_world = Ok (tt, w')
      ∧ files w' !! "state_policies.json" = Some text
      ∧ json_loads text = Some doc
      ∧ dict_get "states" doc = Some (JArray sts)
      ∧ (∀ (i : nat) (s : StateTobaccoPolicy), STATES !! i = Some s →
           (flavored_ecig_effective_date s = None →
              sts !! i ≫= dict_get "flavored_ecig_effective_date" = Some JNull)
           ∧ (menthol_effective_date s = None →
              sts !! i ≫= dict_get "menthol_effective_date" = Some JNull))
      ∧ (∀ (i : nat) (d : json), sts !! i = Some d →
           dict_get "flavored_ecig_effective_date" d ≠ Some (JString EmptyString)
           ∧ dict_get "menthol_effective_date" d ≠ Some (JString EmptyString))
      ∧ (STATES !! 0%nat = Some policy_AL
         ∧ state policy_AL = "Alabama"
         ∧ flavored_ecig_effective_date policy_AL = None
         ∧ sts !! 0%nat ≫= dict_get "flavored_ecig_effective_date" = Some JNull).
Proof.
  split; [apply not_elem_of_empty |].
  apply (export_unset_date_is_null "state_policies.json" initial_world).
  apply not_elem_of_empty.
Defined.

(** C6: a second export to the same path leaves the file as the first export
    made it, byte for byte: both write [exported_text], which depends on
    nothing but the catalogue and the fixed metadata. *)
Theorem export_twice_same_bytes (filename : string) (w : world) :
  filename ∉ unwritable w →
  ∃ (w1 w2 : world),
    export_to_json filename w = Ok (tt, w1)
    ∧ export_to_json filename w1 = Ok (tt, w2)
    ∧ files w1 !! filename = Some exported_text
    ∧ files w2 !! filename = files w1 !! filename
    ∧ files w2 = files w1.
Proof.
  intros Hw.
  pose proof (export_to_json_run filename w Hw) as H1.
  set (w1 := mkWorld (<[filename := exported_text]> (files w)) (unwritable w)
               (stdout w ++ ["Exported 51 state policies to " ++ filename])) in H1.
  assert (Hw1 : filename ∉ unwritable w1) by exact Hw.
  pose proof (export_to_json_run filename w1 Hw1) as H2.
  eexists w1, _. split; [exact H1 |]. split; [exact H2 |].
  cbn [files w1].
  split; [apply lookup_insert_eq |].
  rewrite insert_insert_eq. split; reflexivity.
Qed.

Lemma export_twice_same_bytes_witness :
  ("state_policies.json" ∉ unwritable initial_world)
  ∧ ∃ (w1 w2 : world),
      export_to_json "state_policies.json" initial_world = Ok (tt, w1)
      ∧ export_to_json "state_policies.json" w1 = Ok (tt, w2)
      ∧ files w1 !! "state_policies.json" = Some exported_text
      ∧ files w2 !! "state_policies.json" = files w1 !! "state_policies.json"
      ∧ files w2 = files w1.
Proof.
  split; [apply not_elem_of_empty |].
  apply (export_twice_same_bytes "state_policies.json" initial_world).
  apply not_elem_of_empty.
Defined.

(** C7: the exported file, read back, is an object with the two keys
    [metadata] and [states] and no other; [metadata] holds the date of the
    last update and the data version as strings, the list of source
    descriptions and the notes; [states] has 51 elements. *)
Theorem export_document_shape (filename : string) (w : world) :
  filename ∉ unwritable w →
  ∃ (w' : world) (text : string) (doc : json)
    (last_updated data_version notes : string) (srcs : list string)
    (sts : list json),
    export_to_json filename w = Ok (tt, w')
    ∧ files w' !! filename = Some text
    ∧ json_loads text = Some doc
    ∧ doc = JObject
              [ ("metadata",
                 JObject [ ("last_updated", JString last_updated);
                           ("data_version", JString data_version);
                           ("sources", JArray (JString <$> srcs));
                           ("notes", JString notes) ]);
                ("states", JArray sts) ]
    ∧ dict_keys doc = Some ["metadata"; "states"]
    ∧ last_updated = "2024-12-24"
    ∧ data_version = "1.0"
    ∧ length srcs = 6%nat
    ∧ length sts = 51%nat.
Proof.
  intros Hw. destruct (export_then_read filename w Hw) as (w' & Hrun & Hfile & _).
  eexists w', exported_text, export_data, _, _, _, _, (to_dict <$> STATES).
  split; [exact Hrun |]. split; [exact Hfile |].
  split; [apply json_loads_exported_text |].
  split; [reflexivity |].
  split; [reflexivity |]. split; [reflexivity |]. split; [reflexivity |].
  split; [reflexivity |]. rewrite length_fmap. reflexivity.
Qed.

Lemma export_document_shape_witness :
  ("state_policies.json" ∉ unwritable initial_world)
  ∧ ∃ (w' : world) (text : string) (doc : json)
      (last_updated data_version notes : string) (srcs : list string)
      (sts : list json),
      export_to_json "state_policies.json" initial_world = Ok (tt, w')
      ∧ files w' !! "state_policies.json" = Some text
      ∧ json_loads text = Some doc
      ∧ doc = JObject
                [ ("metadata",
                   JObject [ ("last_updated", JString last_updated);
                             ("data_version", JString data_version);
                             ("sources", JArray (JString <$> srcs));
                             ("notes", JString notes) ]);
                  ("states", JArray sts) ]
      ∧ dict_keys doc = Some ["metadata"; "states"]
      ∧ last_updated = "2024-12-24"
      ∧ data_version = "1.0"
      ∧ length srcs = 6%nat
      ∧ length sts = 51%nat.
Proof.
  split; [apply not_elem_of_empty |].
  apply (export_document_shape "state_policies.json" initial_world).
  apply not_elem_of_empty.
Defined.

(** ** The entry point *)

(** Run as a program from a fresh process, the module prints the summary,
    then writes the export to [state_policies.json] and reports it. *)
Lemma main_run :
  ∃ w' : world,
    main initial_world = Ok (tt, w')
    ∧ files w' !! "state_policies.json" = Some exported_text
    ∧ stdout w'
      = (printed generate_summary_stats
         ++ ["Exported 51 state policies to state_policies.json"])%list.
Proof.
  unfold main, bind. rewrite generate_summary_stats_run.
  rewrite export_to_json_run by apply not_elem_of_empty.
  eexists. split; [reflexivity |].
  split; [apply lookup_insert_eq | reflexivity].
Qed.

(** * Further properties of the code *)

(** ** The dataclass and its constructor *)

Lemma json_of_optional_inj (a b : option string) :
  json_of_optional a = json_of_optional b → a = b.
Proof. destruct a, b; cbn; congruence. Qed.

Lemma JString_fmap_inj (a b : list string) :
  JString <$> a = JString <$> b → a = b.
Proof.
  revert b. induction a as [| x a IH]; intros [| y b] H; cbn in H;
    try discriminate; [reflexivity |].
  injection H as -> H. f_equal. apply IH, H.
Qed.

(** X1: [to_dict] loses nothing: two records with the same dictionary are
    the same record. *)
Theorem to_dict_injective (s1 s2 : StateTobaccoPolicy) :
  to_dict s1 = to_dict s2 → s1 = s2.
Proof.
  destruct s1, s2. unfold to_dict. cbn [state state_abbr flavored_ecig_ban
    flavored_ecig_details flavored_ecig_effective_date menthol_cig_ban
    menthol_ban_details menthol_effective_date has_ecig_tax ecig_tax_rate
    ecig_tax_structure indoor_vaping_ban indoor_ban_details minimum_age
    state_t21_law licensing_required license_fee local_restrictions
    recent_changes sources].
  unfold json_of_strings. intros H. injection H. intros.
  repeat match goal with
         | H : json_of_optional _ = json_of_optional _ |- _ =>
             apply json_of_optional_inj in H
         | H : JString <$> _ = JString <$> _ |- _ =>
             apply JString_fmap_inj in H
         end.
  subst. reflexivity.
Qed.

(** The Alabama record written with its keywords in another order. *)
Lemma to_dict_injective_witness :
  StateTobaccoPolicy_init "Alabama" "AL" "none"
    "No statewide restrictions on flavored e-cigarettes"
    [ kw_sources ["Tax Foundation 2025"; "Truth Initiative 2025"];
      kw_state_t21_law false; kw_indoor_vaping_ban false; kw_has_ecig_tax false ]
  = policy_AL.
Proof.
  apply (to_dict_injective _ policy_AL). reflexivity.
Defined.

Lemma set_kwarg_required (p : StateTobaccoPolicy) (k : kwarg) :
  state (set_kwarg p k) = state p
  ∧ state_abbr (set_kwarg p k) = state_abbr p
  ∧ flavored_ecig_ban (set_kwarg p k) = flavored_ecig_ban p
  ∧ flavored_ecig_details (set_kwarg p k) = flavored_ecig_details p.
Proof. destruct p, k; repeat split. Qed.

Lemma fold_set_kwarg_required (kwargs : list kwarg) (p : StateTobaccoPolicy) :
  state (fold_left set_kwarg kwargs p) = state p
  ∧ state_abbr (fold_left set_kwarg kwargs p) = state_abbr p
  ∧ flavored_ecig_ban (fold_left set_kwarg kwargs p) = flavored_ecig_ban p
  ∧ flavored_ecig_details (fold_left set_kwarg kwargs p) = flavored_ecig_details p.
Proof.
  revert p. induction kwargs as [| k kwargs IH]; intros p; [repeat split |].
  cbn [fold_left]. destruct (IH (set_kwarg p k)) as (-> & -> & -> & ->).
  apply set_kwarg_required.
Qed.

(** X2: whatever keywords are given, the four required arguments end up,
    unchanged, in the fields of their names. *)
Theorem init_required_fields
    (st ab fb fd : string) (kwargs : list kwarg) :
  let p := StateTobaccoPolicy_init st ab fb fd kwargs in
  state p = st ∧ state_abbr p = ab
  ∧ flavored_ecig_ban p = fb ∧ flavored_ecig_details p = fd.
Proof.
  unfold StateTobaccoPolicy_init. cbv zeta.
  match goal with
  | |- context [fold_left set_kwarg kwargs ?p0] =>
      destruct (fold_set_kwarg_required kwargs p0) as (-> & -> & -> & ->)
  end.
  repeat split.
Qed.

(** A field keeps its value under a keyword for another field. *)
Lemma fold_set_kwarg_untouched {A} (get : StateTobaccoPolicy → A)
    (kwargs : list kwarg) :
  (∀ p k, k ∈ kwargs → get (set_kwarg p k) = get p) →
  ∀ p, get (fold_left set_kwarg kwargs p) = get p.
Proof.
  induction kwargs as [| k kwargs IH]; intros Hk p; [reflexivity |].
  cbn [fold_left]. rewrite IH.
  - apply Hk. left.
  - intros q k' Hin. apply Hk. right. exact Hin.
Qed.

(** X3: a field with a default that no keyword names has that default: an
    optional date is [None], the minimum age is 21, and the list of sources
    is empty, which the constructor accepts. *)
Theorem init_defaults_kept
    (st ab fb fd : string) (kwargs : list kwarg) :
  let p := StateTobaccoPolicy_init st ab fb fd kwargs in
  ((∀ v, kw_flavored_ecig_effective_date v ∉ kwargs) →
     flavored_ecig_effective_date p = None)
  ∧ ((∀ v, kw_menthol_effective_date v ∉ kwargs) →
     menthol_effective_date p = None)
  ∧ ((∀ v, kw_minimum_age v ∉ kwargs) → minimum_age p = 21)
  ∧ ((∀ v, kw_sources v ∉ kwargs) → sources p = []).
Proof.
  unfold StateTobaccoPolicy_init. cbv zeta.
  repeat split; intros Hno;
    (rewrite fold_set_kwarg_untouched; [reflexivity |]);
    intros p k Hin; destruct p, k; try reflexivity;
    exfalso; exact (Hno _ Hin).
Qed.

Lemma init_defaults_kept_witness :
  flavored_ecig_effective_date policy_AL = None
  ∧ menthol_effective_date policy_AL = None
  ∧ minimum_age policy_AL = 21
  ∧ sources
      (StateTobaccoPolicy_init "Alabama" "AL" "none"
         "No statewide restrictions on flavored e-cigarettes"
         [kw_has_ecig_tax false]) = [].
Proof.
  pose proof (init_defaults_kept "Alabama" "AL" "none"
    "No statewide restrictions on flavored e-cigarettes"
    [ kw_has_ecig_tax false; kw_indoor_vaping_ban false; kw_state_t21_law false;
      kw_sources ["Tax Foundation 2025"; "Truth Initiative 2025"] ])
    as (Hf & Hm & Ha & _).
  pose proof (init_defaults_kept "Alabama" "AL" "none"
    "No statewide restrictions on flavored e-cigarettes"
    [kw_has_ecig_tax false]) as (_ & _ & _ & Hs).
  split; [apply Hf |]. 2: split; [apply Hm |]. 3: split; [apply Ha | apply Hs].
  all: intros v Hin; repeat (apply elem_of_cons in Hin as [Hin | Hin];
         [discriminate Hin |]); apply elem_of_nil in Hin; exact Hin.
Defined.

(** ** The exporter and the reporter as effects *)






(** ** The counts of the reporter *)

Lemma fold_left_add_ones {A} (l : list A) (acc : Z) :
  fold_left Z.add ((λ _, 1) <$> l) acc = acc + Z.of_nat (length l).
Proof.
  revert acc. induction l as [| x l IH]; intros acc; cbn [fmap list_fmap fold_left length].
  - lia.
  - rewrite IH. lia.
Qed.

Lemma py_sum_ones {A} (l : list A) :
  py_sum ((λ _, 1) <$> l) = Z.of_nat (length l).
Proof. unfold py_sum. rewrite fold_left_add_ones. lia. Qed.

Lemma filter_split_length {A} (p : A → bool) (l : list A) :
  (length (List.filter p l) + length (List.filter (λ x, negb (p x)) l))%nat
  = length l.
Proof.
  induction l as [| x l IH]; [reflexivity |].
  cbn [List.filter]. destruct (p x); cbn [negb length]; lia.
Qed.

Lemma count_where_split (p : StateTobaccoPolicy → bool) :
  0 ≤ count_where p
  ∧ count_where p + count_where (λ s, negb (p s)) = total_states.
Proof.
  unfold count_where, total_states, len. rewrite !py_sum_ones.
  pose proof (filter_split_length p STATES). lia.
Qed.

(** X8: whatever is counted, the count of the records that pass a test and
    the count of those that fail it add up to the number of records, so
    each count lies between 0 and that number. *)
Theorem count_where_partition (p : StateTobaccoPolicy → bool) :
  0 ≤ count_where p ≤ total_states
  ∧ count_where p + count_where (λ s, negb (p s)) = total_states.
Proof.
  pose proof (count_where_split p) as [H0 Hs].
  pose proof (count_where_split (λ s, negb (p s))) as [H1 _].
  lia.
Qed.

(** X9: [without_tax], which the reporter gets by subtraction, is the
    number of records whose [has_ecig_tax] is false; the two tax counts add
    up to the total. *)
Theorem without_tax_counts_untaxed :
  with_tax + without_tax = total_states
  ∧ without_tax = count_where (λ s, negb (has_ecig_tax s))
  ∧ 0 ≤ without_tax.
Proof.
  unfold with_tax, without_tax.
  pose proof (count_where_split has_ecig_tax) as [H0 Hs].
  pose proof (count_where_split (λ s, negb (has_ecig_tax s))) as [H1 _].
  fold with_tax in *. lia.
Qed.

(** ** The JSON text, for every document *)

(** *** Bytes, characters and finite checks *)

Lemma byte_of_chr (n : Z) : 0 ≤ n < 256 → byte_of (chr n) = n.
Proof.
  intros Hn. unfold byte_of, chr. rewrite N_ascii_embedding; lia.
Qed.

Lemma chr_byte_of (c : ascii) : chr (byte_of c) = c.
Proof. unfold byte_of, chr. rewrite N2Z.id. apply ascii_N_embedding. Qed.

Lemma byte_of_range (c : ascii) : 0 ≤ byte_of c < 256.
Proof.
  unfold byte_of. pose proof (N_ascii_bounded c). lia.
Qed.

Lemma all_ascii_spec (P : ascii → bool) :
  all_ascii P = true → ∀ c, P c = true.
Proof.
  unfold all_ascii. intros H c.
  rewrite forallb_forall in H. specialize (H (nat_of_ascii c)).
  rewrite ascii_nat_embedding in H. apply H.
  apply in_seq. pose proof (nat_ascii_bounded c). lia.
Qed.

Lemma all_from_spec (n : nat) (P : Z → bool) (start : Z) :
  all_from n start P = true →
  ∀ x, start ≤ x < start + Z.of_nat n → P x = true.
Proof.
  revert start. induction n as [| n IH]; intros start H x Hx; [lia |].
  cbn [all_from] in H. destruct (P start) eqn:Hs; [| discriminate].
  destruct (Z.eq_dec x start) as [-> | Hne]; [exact Hs |].
  apply (IH (start + 1) H). lia.
Qed.

Lemma all_from_range (k : Z) (P : Z → bool) (start : Z) :
  all_from (Z.to_nat k) start P = true →
  ∀ x, start ≤ x < start + k → P x = true.
Proof.
  intros H x Hx. apply (all_from_spec _ _ _ H). lia.
Qed.

Lemma append_cons (x : ascii) (a b : string) :
  String x a ++ b = String x (a ++ b).
Proof. reflexivity. Qed.

Lemma append_nil_l (b : string) : EmptyString ++ b = b.
Proof. reflexivity. Qed.

Lemma append_assoc (a b c : string) : (a ++ b) ++ c = a ++ (b ++ c).
Proof.
  induction a as [| x a IH]; [reflexivity |].
  rewrite !append_cons, IH. reflexivity.
Qed.

Lemma append_nil_r (a : string) : a ++ EmptyString = a.
Proof.
  induction a as [| x a IH]; [reflexivity |].
  rewrite append_cons, IH. reflexivity.
Qed.

Lemma length_append (a b : string) :
  String.length (a ++ b) = (String.length a + String.length b)%nat.
Proof.
  induction a as [| x a IH]; [reflexivity |].
  rewrite append_cons. cbn [String.length]. now rewrite IH.
Qed.

Lemma all_chars_append (p : ascii → bool) (a b : string) :
  all_chars p (a ++ b) = all_chars p a && all_chars p b.
Proof.
  induction a as [| x a IH]; [reflexivity |].
  rewrite append_cons. cbn [all_chars]. rewrite IH. apply andb_assoc.
Qed.

(** *** The shape of an encoded value *)

Lemma json_induction (P : json → Prop) :
  P JNull → (∀ b, P (JBool b)) → (∀ n, P (JInt n)) → (∀ s, P (JString s)) →
  (∀ l, Forall P l → P (JArray l)) →
  (∀ m, Forall (λ kv, P (snd kv)) m → P (JObject m)) →
  ∀ v, P v.
Proof.
  intros Hnull Hbool Hint Hstr Harr Hobj.
  fix IH 1. intros [| b | n | s | l | m].
  - exact Hnull.
  - apply Hbool.
  - apply Hint.
  - apply Hstr.
  - apply Harr. induction l as [| x l IHl]; constructor; [apply IH | exact IHl].
  - apply Hobj. induction m as [| [k x] m IHm]; constructor; [apply IH | exact IHm].
Qed.

Lemma encode_array_cons (indent level : nat) (x : json) (xs : list json) :
  encode indent level (JArray (x :: xs))
  = "[" ++ newline_indent indent (S level) ++ encode indent (S level) x
    ++ encode_items indent level xs ++ newline_indent indent level ++ "]".
Proof. reflexivity. Qed.

Lemma encode_object_cons (indent level : nat) (k : string) (x : json)
    (xs : list (string * json)) :
  encode indent level (JObject ((k, x) :: xs))
  = "{" ++ newline_indent indent (S level)
    ++ encode_basestring_ascii k ++ ": " ++ encode indent (S level) x
    ++ encode_members indent level xs ++ newline_indent indent level ++ "}".
Proof. reflexivity. Qed.

Lemma encode_items_cons (indent level : nat) (y : json) (ys : list json) :
  encode_items indent level (y :: ys)
  = "," ++ newline_indent indent (S level)
    ++ encode indent (S level) y ++ encode_items indent level ys.
Proof. reflexivity. Qed.

Lemma encode_members_cons (indent level : nat) (k : string) (y : json)
    (ys : list (string * json)) :
  encode_members indent level ((k, y) :: ys)
  = "," ++ newline_indent indent (S level)
    ++ encode_basestring_ascii k ++ ": "
    ++ encode indent (S level) y ++ encode_members indent level ys.
Proof. reflexivity. Qed.

(** *** Only printable ASCII and line breaks *)

Lemma land_15_range (x : Z) : 0 ≤ Z.land x 15 < 16.
Proof.
  change 15 with (Z.ones 4). rewrite Z.land_ones by lia.
  apply Z.mod_pos_bound. reflexivity.
Qed.

Lemma hex_digit_plain (d : Z) : 0 ≤ d < 16 → is_plain (hex_digit d) = true.
Proof.
  intros Hd.
  apply (all_from_range 16 (λ d, is_plain (hex_digit d)) 0); [reflexivity | lia].
Qed.

Lemma escape_u_plain (n : Z) : all_chars is_plain (escape_u n) = true.
Proof.
  unfold escape_u. cbn [all_chars].
  rewrite !hex_digit_plain by apply land_15_range. reflexivity.
Qed.

Lemma escape_code_point_plain (n : Z) :
  all_chars is_plain (escape_code_point n) = true.
Proof.
  unfold escape_code_point.
  repeat (match goal with
          | |- context [if ?b then _ else _] => destruct b eqn:?
          end; try reflexivity).
  - cbn [all_chars]. unfold is_plain. rewrite byte_of_chr by lia.
    rewrite andb_true_r. apply orb_true_iff. left. assumption.
  - apply escape_u_plain.
  - rewrite all_chars_append, !escape_u_plain. reflexivity.
Qed.

Lemma by_length (P : string → Prop) :
  (∀ s, (∀ t, (String.length t < String.length s)%nat → P t) → P s) →
  ∀ s, P s.
Proof.
  intros Hstep s.
  assert (H : ∀ n t, (String.length t < n)%nat → P t).
  { induction n as [| n IH]; intros t Ht; [lia |].
    apply Hstep. intros u Hu. apply IH. lia. }
  apply (H (S (String.length s))). lia.
Qed.

Lemma encode_body_plain (s : string) : all_chars is_plain (encode_body s) = true.
Proof.
  induction s as [s IH] using by_length.
  destruct s as [| c r]; [reflexivity |].
  cbn [encode_body]. cbv zeta.
  assert (Hr : all_chars is_plain (encode_body r) = true)
    by (apply IH; cbn [String.length]; lia).
  repeat (match goal with
          | |- context [if ?b then _ else _] => destruct b eqn:?
          | |- context [match ?x with EmptyString => _ | String _ _ => _ end] =>
              destruct x
          end);
    rewrite all_chars_append, escape_code_point_plain; cbn [andb];
    try exact Hr; apply IH; cbn [String.length]; lia.
Qed.

Lemma encode_basestring_ascii_plain (s : string) :
  all_chars is_plain (encode_basestring_ascii s) = true.
Proof.
  unfold encode_basestring_ascii. cbn [all_chars].
  rewrite all_chars_append, encode_body_plain. reflexivity.
Qed.

Lemma digit_plain (n : Z) : is_plain (chr (48 + n mod 10)) = true.
Proof.
  pose proof (Z.mod_pos_bound n 10 eq_refl).
  unfold is_plain. rewrite byte_of_chr by lia.
  apply orb_true_iff. left. apply andb_true_iff. split; lia.
Qed.

Lemma digits_go_plain (fuel : nat) (n : Z) (acc : string) :
  all_chars is_plain acc = true →
  all_chars is_plain (digits_go fuel n acc) = true.
Proof.
  revert n acc. induction fuel as [| fuel IH]; intros n acc Hacc; [exact Hacc |].
  cbn [digits_go]. cbv zeta.
  assert (H : all_chars is_plain (String (chr (48 + n mod 10)) acc) = true)
    by (cbn [all_chars]; rewrite digit_plain; exact Hacc).
  destruct (n <? 10); [exact H | apply IH, H].
Qed.

Lemma str_int_plain (n : Z) : all_chars is_plain (str_int n) = true.
Proof.
  unfold str_int. destruct (n <? 0).
  - cbn [all_chars]. rewrite digits_go_plain; reflexivity.
  - apply digits_go_plain. reflexivity.
Qed.

Lemma newline_indent_plain (indent level : nat) :
  all_chars is_plain (newline_indent indent level) = true.
Proof.
  unfold newline_indent. cbn [all_chars].
  induction (indent * level)%nat as [| k IH]; [reflexivity | exact IH].
Qed.

Lemma encode_items_plain (indent level : nat) (l : list json) :
  Forall (λ x, ∀ i lv, all_chars is_plain (encode i lv x) = true) l →
  all_chars is_plain (encode_items indent level l) = true.
Proof.
  induction 1 as [| y ys Hy Hys IH]; [reflexivity |].
  rewrite encode_items_cons.
  rewrite !all_chars_append, newline_indent_plain, Hy, IH. reflexivity.
Qed.

Lemma encode_members_plain (indent level : nat) (m : list (string * json)) :
  Forall (λ kv, ∀ i lv, all_chars is_plain (encode i lv (snd kv)) = true) m →
  all_chars is_plain (encode_members indent level m) = true.
Proof.
  induction 1 as [| [k y] ys Hy Hys IH]; [reflexivity |].
  rewrite encode_members_cons. cbn [snd] in Hy.
  rewrite !all_chars_append, newline_indent_plain,
    encode_basestring_ascii_plain, Hy, IH. reflexivity.
Qed.

Lemma encode_plain (v : json) :
  ∀ indent level, all_chars is_plain (encode indent level v) = true.
Proof.
  induction v as [| [|] | n | s | l IH | m IH] using json_induction;
    intros indent level; try reflexivity.
  - apply str_int_plain.
  - apply encode_basestring_ascii_plain.
  - destruct IH as [| x xs Hx Hxs]; [reflexivity |].
    rewrite encode_array_cons.
    rewrite !all_chars_append, !newline_indent_plain, Hx,
      (encode_items_plain _ _ _ Hxs). reflexivity.
  - destruct IH as [| [k x] xs Hx Hxs]; [reflexivity |].
    rewrite encode_object_cons. cbn [snd] in Hx.
    rewrite !all_chars_append, !newline_indent_plain,
      encode_basestring_ascii_plain, Hx, (encode_members_plain _ _ _ Hxs).
    reflexivity.
Qed.

(** X10: whatever the document, the text [json.dump] writes for it consists
    of printable ASCII characters and line breaks only; so does the file the
    exporter writes. *)
Theorem json_dumps_plain_ascii (indent : nat) (v : json) :
  all_chars is_plain (json_dumps indent v) = true.
Proof. apply encode_plain. Qed.

(** *** Strings read back *)

Lemma hex4_escape_check :
  all_from (Z.to_nat 65536) 0
    (λ n, match hex4 (hex_digit (Z.land (Z.shiftr n 12) 15))
                  (hex_digit (Z.land (Z.shiftr n 8) 15))
                  (hex_digit (Z.land (Z.shiftr n 4) 15))
                  (hex_digit (Z.land n 15)) with
          | Some m => m =? n
          | None => false
          end) = true.
Proof. vm_compute. reflexivity. Qed.

Lemma hex4_escape (n : Z) :
  0 ≤ n < 65536 →
  hex4 (hex_digit (Z.land (Z.shiftr n 12) 15))
       (hex_digit (Z.land (Z.shiftr n 8) 15))
       (hex_digit (Z.land (Z.shiftr n 4) 15))
       (hex_digit (Z.land n 15)) = Some n.
Proof.
  intros Hn. pose proof (all_from_range _ _ _ hex4_escape_check n) as H.
  cbv beta in H. specialize (H ltac:(lia)).
  destruct (hex4 _ _ _ _) as [m |]; [| discriminate].
  apply Z.eqb_eq in H. congruence.
Qed.

Lemma surrogate_split (n : Z) :
  is_surrogate n = is_high_surrogate n || is_low_surrogate n.
Proof.
  unfold is_surrogate, is_high_surrogate, is_low_surrogate.
  destruct (55296 <=? n) eqn:?, (n <=? 57343) eqn:?, (n <=? 56319) eqn:?,
    (56320 <=? n) eqn:?; cbn; try reflexivity; lia.
Qed.

(** One step of the scanner on a character that stands for itself. *)
Lemma scan_string_self (c : ascii) (r : string) :
  32 ≤ byte_of c → byte_of c ≠ 34 → byte_of c ≠ 92 →
  scan_string (String c r) None
  = '(t, rest) ← scan_string r None; Some (String c t, rest).
Proof.
  intros H32 H34 H92. cbn [scan_string]. cbv zeta.
  rewrite (proj2 (Z.eqb_neq _ _) H34), (proj2 (Z.eqb_neq _ _) H92).
  rewrite (proj2 (Z.ltb_ge _ _) H32). reflexivity.
Qed.

(** One step of the scanner on a [\uXXXX] escape. *)
Lemma scan_string_u (n : Z) (r : string) (hi : option Z) :
  0 ≤ n < 65536 →
  scan_string (escape_u n ++ r) hi
  = match hi with
    | Some h =>
        if is_low_surrogate n then
          '(t, rest) ← scan_string r None;
          Some (utf8_encode (65536 + Z.shiftl (h - 55296) 10 + (n - 56320)) ++ t,
                rest)
        else None
    | None =>
        if is_high_surrogate n then scan_string r (Some n)
        else if is_low_surrogate n then None
        else '(t, rest) ← scan_string r None; Some (utf8_encode n ++ t, rest)
    end.
Proof.
  intros Hn. unfold escape_u. rewrite !append_cons, append_nil_l.
  cbn [scan_string]. cbv zeta.
  change (byte_of backslash =? 34) with false.
  change (byte_of backslash =? 92) with true.
  change (byte_of "u" =? 117) with true. cbv iota.
  rewrite (hex4_escape n Hn). reflexivity.
Qed.

Lemma lor_shiftl_add (a r k : Z) :
  0 ≤ k → 0 ≤ r < 2 ^ k → Z.lor (Z.shiftl a k) r = a * 2 ^ k + r.
Proof.
  intros Hk Hr. rewrite <- Z.shiftl_mul_pow2 by exact Hk.
  symmetry. apply Z.add_nocarry_lor.
  apply Z.bits_inj'. intros i Hi. rewrite Z.land_spec, Z.bits_0.
  destruct (Z.lt_ge_cases i k) as [Hlt | Hge].
  - rewrite Z.shiftl_spec_low by exact Hlt. reflexivity.
  - rewrite <- (Z.mod_small r (2 ^ k)) by exact Hr.
    rewrite Z.mod_pow2_bits_high by lia. apply andb_false_r.
Qed.

(** The two halves of a code point above the basic plane. *)
Lemma surrogate_pair (n : Z) :
  65536 ≤ n ≤ 1114111 →
  let h := Z.lor 55296 (Z.land (Z.shiftr (n - 65536) 10) 1023) in
  let l := Z.lor 56320 (Z.land (n - 65536) 1023) in
  is_high_surrogate h = true ∧ is_low_surrogate l = true
  ∧ 65536 + Z.shiftl (h - 55296) 10 + (l - 56320) = n.
Proof.
  intros Hn. cbv zeta.
  change 1023 with (Z.ones 10). rewrite !Z.land_ones by lia.
  rewrite Z.shiftr_div_pow2 by lia. change (2 ^ 10) with 1024.
  change 55296 with (Z.shiftl 54 10) at 1 2. change 56320 with (Z.shiftl 55 10) at 1 2.
  pose proof (Z.mod_pos_bound ((n - 65536) / 1024) 1024 eq_refl) as Hh.
  pose proof (Z.mod_pos_bound (n - 65536) 1024 eq_refl) as Hl.
  rewrite !lor_shiftl_add by (change (2 ^ 10) with 1024; lia).
  change (2 ^ 10) with 1024. change (Z.shiftl 54 10) with 55296.
  rewrite Z.shiftl_mul_pow2 by lia. change (2 ^ 10) with 1024.
  unfold is_high_surrogate, is_low_surrogate.
  rewrite !andb_true_iff.
  assert ((n - 65536) / 1024 mod 1024 = (n - 65536) / 1024)
    by (apply Z.mod_small; split;
          [apply Z.div_pos; lia | apply Z.div_lt_upper_bound; lia]).
  pose proof (Z.div_mod (n - 65536) 1024 ltac:(lia)).
  repeat split; lia.
Qed.

Lemma utf8_encode_ascii (n : Z) :
  n < 128 → utf8_encode n = String (chr n) EmptyString.
Proof. intros Hn. unfold utf8_encode. rewrite (proj2 (Z.ltb_lt _ _) Hn). reflexivity. Qed.

(** The scanner undoes the escape of one code point. *)
Lemma scan_escape (n : Z) (tail : string) :
  is_scalar n = true →
  scan_string (escape_code_point n ++ tail) None
  = '(t, rest) ← scan_string tail None; Some (utf8_encode n ++ t, rest).
Proof.
  unfold is_scalar. rewrite !andb_true_iff, negb_true_iff, surrogate_split.
  rewrite orb_false_iff. intros [[H0 Hmax] [Hhi Hlo]].
  apply Z.leb_le in H0, Hmax.
  unfold escape_code_point.
  repeat match goal with
         | |- context [if ?n =? ?k then _ else _] =>
             destruct (Z.eqb_spec n k) as [-> | ?]; [reflexivity |]
         end.
  destruct ((32 <=? n) && (n <=? 126)) eqn:Hp.
  - apply andb_true_iff in Hp as [Hp1 Hp2]. apply Z.leb_le in Hp1, Hp2.
    rewrite append_cons, append_nil_l.
    rewrite scan_string_self by (rewrite byte_of_chr; lia).
    rewrite utf8_encode_ascii by lia. reflexivity.
  - destruct (n <? 65536) eqn:Hs.
    + apply Z.ltb_lt in Hs. rewrite scan_string_u by lia.
      rewrite Hhi, Hlo. reflexivity.
    + apply Z.ltb_ge in Hs. cbv zeta. rewrite append_assoc.
      destruct (surrogate_pair n ltac:(lia)) as (Hh & Hl & Hsum).
      cbv zeta in Hh, Hl, Hsum.
      set (h := Z.lor 55296 (Z.land (Z.shiftr (n - 65536) 10) 1023)) in *.
      set (l := Z.lor 56320 (Z.land (n - 65536) 1023)) in *.
      assert (Hhr : 0 ≤ h < 65536)
        by (unfold is_high_surrogate in Hh; apply andb_true_iff in Hh; lia).
      assert (Hlr : 0 ≤ l < 65536)
        by (unfold is_low_surrogate in Hl; apply andb_true_iff in Hl; lia).
      rewrite scan_string_u by exact Hhr. rewrite Hh.
      rewrite scan_string_u by exact Hlr. rewrite Hl, Hsum. reflexivity.
Qed.

(** *** UTF-8 sequences *)

Lemma div_add_small (a r k : Z) : 0 ≤ r < k → (a * k + r) / k = a.
Proof. intros Hr. symmetry. apply (Z.div_unique_pos _ _ _ r); lia. Qed.

Lemma mod_add_small (a r k : Z) : 0 ≤ r < k → (a * k + r) mod k = r.
Proof. intros Hr. symmetry. apply (Z.mod_unique_pos _ _ a); lia. Qed.

Lemma land_63 (x : Z) : Z.land x 63 = x mod 64.
Proof. change 63 with (Z.ones 6). rewrite Z.land_ones by lia. reflexivity. Qed.

Lemma cont_range (c : ascii) : 0 ≤ cont c < 64.
Proof. unfold cont. rewrite land_63. apply Z.mod_pos_bound. reflexivity. Qed.

(** What the first byte of a sequence and a continuation byte carry. *)
Lemma bytes_check :
  all_ascii (λ c,
    (if is_cont c then Ascii.eqb (chr (Z.lor 128 (cont c))) c else true)
    && (if lead2 c then
          Ascii.eqb (chr (Z.lor 192 (Z.land (byte_of c) 31))) c
          && (2 <=? Z.land (byte_of c) 31) && (Z.land (byte_of c) 31 <? 32)
        else true)
    && (if lead3 c then
          Ascii.eqb (chr (Z.lor 224 (Z.land (byte_of c) 15))) c
          && (0 <=? Z.land (byte_of c) 15) && (Z.land (byte_of c) 15 <? 16)
        else true)
    && (if lead4 c then
          Ascii.eqb (chr (Z.lor 240 (Z.land (byte_of c) 7))) c
          && (0 <=? Z.land (byte_of c) 7) && (Z.land (byte_of c) 7 <? 8)
        else true)) = true.
Proof. vm_compute. reflexivity. Qed.

Lemma cont_rebuild (c : ascii) :
  is_cont c = true → chr (Z.lor 128 (cont c)) = c.
Proof.
  intros Hc. pose proof (all_ascii_spec _ bytes_check c) as H. cbv beta in H.
  rewrite Hc in H. rewrite !andb_true_iff in H.
  apply Ascii.eqb_eq. tauto.
Qed.

Lemma lead2_rebuild (c : ascii) :
  lead2 c = true →
  chr (Z.lor 192 (Z.land (byte_of c) 31)) = c ∧ 2 ≤ Z.land (byte_of c) 31 < 32.
Proof.
  intros Hc. pose proof (all_ascii_spec _ bytes_check c) as H. cbv beta in H.
  rewrite Hc in H. rewrite !andb_true_iff in H.
  destruct H as [[[_ [[H1 H2] H3]] _] _].
  apply Ascii.eqb_eq in H1. split; [exact H1 | lia].
Qed.

Lemma lead3_rebuild (c : ascii) :
  lead3 c = true →
  chr (Z.lor 224 (Z.land (byte_of c) 15)) = c ∧ 0 ≤ Z.land (byte_of c) 15 < 16.
Proof.
  intros Hc. pose proof (all_ascii_spec _ bytes_check c) as H. cbv beta in H.
  rewrite Hc in H. rewrite !andb_true_iff in H.
  destruct H as [[_ [[H1 H2] H3]] _].
  apply Ascii.eqb_eq in H1. split; [exact H1 | lia].
Qed.

Lemma lead4_rebuild (c : ascii) :
  lead4 c = true →
  chr (Z.lor 240 (Z.land (byte_of c) 7)) = c ∧ 0 ≤ Z.land (byte_of c) 7 < 8.
Proof.
  intros Hc. pose proof (all_ascii_spec _ bytes_check c) as H. cbv beta in H.
  rewrite Hc in H. rewrite !andb_true_iff in H.
  destruct H as [_ [[H1 H2] H3]].
  apply Ascii.eqb_eq in H1. split; [exact H1 | lia].
Qed.

Lemma decode2_sum (c1 c2 : ascii) :
  decode2 c1 c2 = Z.land (byte_of c1) 31 * 64 + cont c2.
Proof.
  unfold decode2. pose proof (cont_range c2).
  rewrite lor_shiftl_add by lia. reflexivity.
Qed.

Lemma decode3_sum (c1 c2 c3 : ascii) :
  decode3 c1 c2 c3
  = Z.land (byte_of c1) 15 * 4096 + (cont c2 * 64 + cont c3).
Proof.
  unfold decode3. pose proof (cont_range c2). pose proof (cont_range c3).
  rewrite (lor_shiftl_add (cont c2)) by lia.
  rewrite lor_shiftl_add by lia. reflexivity.
Qed.

Lemma decode4_sum (c1 c2 c3 c4 : ascii) :
  decode4 c1 c2 c3 c4
  = Z.land (byte_of c1) 7 * 262144
    + (cont c2 * 4096 + (cont c3 * 64 + cont c4)).
Proof.
  unfold decode4.
  pose proof (cont_range c2). pose proof (cont_range c3). pose proof (cont_range c4).
  rewrite (lor_shiftl_add (cont c3)) by lia.
  rewrite (lor_shiftl_add (cont c2)) by lia.
  rewrite lor_shiftl_add by lia. reflexivity.
Qed.

Lemma is_scalar_intro (n : Z) :
  0 ≤ n ≤ 1114111 → is_surrogate n = false → is_scalar n = true.
Proof.
  intros Hn Hs. unfold is_scalar. rewrite Hs.
  rewrite !andb_true_iff. repeat split; lia.
Qed.

Lemma utf8_two (c1 c2 : ascii) :
  lead2 c1 = true → is_cont c2 = true →
  is_scalar (decode2 c1 c2) = true
  ∧ utf8_encode (decode2 c1 c2) = String c1 (String c2 EmptyString).
Proof.
  intros H1 H2. rewrite decode2_sum.
  destruct (lead2_rebuild c1 H1) as [Hc1 Ha].
  pose proof (cont_rebuild c2 H2) as Hc2. pose proof (cont_range c2) as Hb.
  set (a := Z.land (byte_of c1) 31) in *. set (b := cont c2) in *.
  split.
  - apply is_scalar_intro; [lia |]. unfold is_surrogate. lia.
  - unfold utf8_encode.
    rewrite (proj2 (Z.ltb_ge _ _)) by lia.
    rewrite (proj2 (Z.ltb_lt _ _)) by lia.
    rewrite Z.shiftr_div_pow2, land_63 by lia.
    change (2 ^ 6) with 64.
    rewrite div_add_small, mod_add_small by lia.
    rewrite Hc1, Hc2. reflexivity.
Qed.

Lemma utf8_three (c1 c2 c3 : ascii) :
  lead3 c1 = true → is_cont c2 = true → is_cont c3 = true →
  2048 ≤ decode3 c1 c2 c3 → is_surrogate (decode3 c1 c2 c3) = false →
  is_scalar (decode3 c1 c2 c3) = true
  ∧ utf8_encode (decode3 c1 c2 c3)
    = String c1 (String c2 (String c3 EmptyString)).
Proof.
  intros H1 H2 H3. rewrite decode3_sum. intros Hmin Hsur.
  destruct (lead3_rebuild c1 H1) as [Hc1 Ha].
  pose proof (cont_rebuild c2 H2) as Hc2. pose proof (cont_range c2) as Hb.
  pose proof (cont_rebuild c3 H3) as Hc3. pose proof (cont_range c3) as Hc.
  set (a := Z.land (byte_of c1) 15) in *.
  set (b := cont c2) in *. set (c := cont c3) in *.
  split.
  - apply is_scalar_intro; [lia | exact Hsur].
  - unfold utf8_encode.
    rewrite !(proj2 (Z.ltb_ge _ _)) by lia.
    rewrite (proj2 (Z.ltb_lt _ _)) by lia.
    rewrite !Z.shiftr_div_pow2, !land_63 by lia.
    change (2 ^ 12) with 4096. change (2 ^ 6) with 64.
    rewrite (div_add_small a) by lia.
    replace (a * 4096 + (b * 64 + c)) with ((a * 64 + b) * 64 + c) by lia.
    rewrite div_add_small, !mod_add_small by lia.
    rewrite Hc1, Hc2, Hc3. reflexivity.
Qed.

Lemma utf8_four (c1 c2 c3 c4 : ascii) :
  lead4 c1 = true → is_cont c2 = true → is_cont c3 = true → is_cont c4 = true →
  65536 ≤ decode4 c1 c2 c3 c4 ≤ 1114111 →
  is_scalar (decode4 c1 c2 c3 c4) = true
  ∧ utf8_encode (decode4 c1 c2 c3 c4)
    = String c1 (String c2 (String c3 (String c4 EmptyString))).
Proof.
  intros H1 H2 H3 H4. rewrite decode4_sum. intros Hn.
  destruct (lead4_rebuild c1 H1) as [Hc1 Ha].
  pose proof (cont_rebuild c2 H2) as Hc2. pose proof (cont_range c2) as Hb.
  pose proof (cont_rebuild c3 H3) as Hc3. pose proof (cont_range c3) as Hc.
  pose proof (cont_rebuild c4 H4) as Hc4. pose proof (cont_range c4) as Hd.
  set (a := Z.land (byte_of c1) 7) in *.
  set (b := cont c2) in *. set (c := cont c3) in *. set (d := cont c4) in *.
  split.
  - apply is_scalar_intro; [lia |]. unfold is_surrogate. lia.
  - unfold utf8_encode.
    rewrite !(proj2 (Z.ltb_ge _ _)) by lia.
    rewrite !Z.shiftr_div_pow2, !land_63 by lia.
    change (2 ^ 18) with 262144. change (2 ^ 12) with 4096. change (2 ^ 6) with 64.
    rewrite (div_add_small a) by lia.
    replace (a * 262144 + (b * 4096 + (c * 64 + d)))
      with ((a * 64 + b) * 4096 + (c * 64 + d)) by lia.
    rewrite (div_add_small (a * 64 + b)) by lia.
    rewrite (mod_add_small a) by lia.
    replace ((a * 64 + b) * 4096 + (c * 64 + d))
      with (((a * 64 + b) * 64 + c) * 64 + d) by lia.
    rewrite div_add_small, !mod_add_small by lia.
    rewrite Hc1, Hc2, Hc3, Hc4. reflexivity.
Qed.

(** The scanner gives back a well-formed string from its escaped body. *)
Lemma scan_string_encode_body (s : string) :
  valid_utf8 s = true →
  ∀ rest, scan_string (encode_body s ++ String dquote rest) None = Some (s, rest).
Proof.
  induction s as [s IH] using by_length.
  destruct s as [| c r]; [intros _ rest; reflexivity |].
  cbn [valid_utf8 encode_body]. cbv zeta.
  pose proof (byte_of_range c) as Hc.
  destruct (byte_of c <? 128) eqn:H1.
  { intros Hv rest.
    rewrite append_assoc, scan_escape
      by (apply is_scalar_intro; [lia | unfold is_surrogate; lia]).
    rewrite (IH r) by (cbn [String.length]; lia || exact Hv).
    cbn. rewrite utf8_encode_ascii, chr_byte_of by lia. reflexivity. }
  fold (lead2 c). fold (lead3 c). fold (lead4 c).
  destruct (lead2 c) eqn:H2.
  { destruct r as [| c2 r2]; [discriminate |].
    intros Hv rest. apply andb_true_iff in Hv as [Hc2 Hv].
    destruct (utf8_two c c2 H2 Hc2) as [Hs He].
    replace ((192 <=? byte_of c) && (byte_of c <? 224)) with true
      by (unfold lead2 in H2; lia).
    fold (decode2 c c2).
    rewrite append_assoc, scan_escape by exact Hs.
    rewrite (IH r2) by (cbn [String.length]; lia || exact Hv).
    cbn. rewrite He. reflexivity. }
  destruct (lead3 c) eqn:H3.
  { destruct r as [| c2 [| c3 r3]]; try discriminate.
    intros Hv rest. rewrite !andb_true_iff, negb_true_iff in Hv.
    destruct Hv as [[[[Hc2 Hc3] Hmin] Hsur] Hv].
    destruct (utf8_three c c2 c3 H3 Hc2 Hc3 ltac:(lia) Hsur) as [Hs He].
    replace ((192 <=? byte_of c) && (byte_of c <? 224)) with false
      by (unfold lead3 in H3; lia).
    fold (decode3 c c2 c3).
    rewrite append_assoc, scan_escape by exact Hs.
    rewrite (IH r3) by (cbn [String.length]; lia || exact Hv).
    cbn. rewrite He. reflexivity. }
  destruct (lead4 c) eqn:H4; [| discriminate].
  destruct r as [| c2 [| c3 [| c4 r4]]]; try discriminate.
  intros Hv rest. rewrite !andb_true_iff in Hv.
  destruct Hv as [[[[[Hc2 Hc3] Hc4] Hmin] Hmax] Hv].
  destruct (utf8_four c c2 c3 c4 H4 Hc2 Hc3 Hc4 ltac:(lia)) as [Hs He].
  replace ((192 <=? byte_of c) && (byte_of c <? 224)) with false
    by (unfold lead4 in H4; lia).
  replace ((224 <=? byte_of c) && (byte_of c <? 240)) with false
    by (unfold lead4 in H4; lia).
  replace ((240 <=? byte_of c) && (byte_of c <? 248)) with true
    by (unfold lead4 in H4; lia).
  fold (decode4 c c2 c3 c4).
  rewrite append_assoc, scan_escape by exact Hs.
  rewrite (IH r4) by (cbn [String.length]; lia || exact Hv).
  cbn. rewrite He. reflexivity.
Qed.

Lemma scan_string_encoded (s rest : string) :
  valid_utf8 s = true →
  ∃ r, encode_basestring_ascii s ++ rest = String dquote r
       ∧ scan_string r None = Some (s, rest).
Proof.
  intros Hv. exists (encode_body s ++ String dquote rest). split.
  - unfold encode_basestring_ascii. rewrite append_cons, append_assoc. reflexivity.
  - apply scan_string_encode_body, Hv.
Qed.

(** *** Integers read back *)

Lemma digits_go_append (fuel : nat) (n : Z) (acc rest : string) :
  digits_go fuel n acc ++ rest = digits_go fuel n (acc ++ rest).
Proof.
  revert n acc. induction fuel as [| fuel IH]; intros n acc; [reflexivity |].
  cbn [digits_go]. cbv zeta. destruct (n <? 10); [reflexivity |].
  rewrite IH. reflexivity.
Qed.

Lemma scan_digits_digit (d : Z) (s : string) (a : Z) :
  0 ≤ d ≤ 9 →
  scan_digits (String (chr (48 + d)) s) a = scan_digits s (a * 10 + d).
Proof.
  intros Hd. cbn [scan_digits]. unfold is_digit.
  rewrite byte_of_chr by lia.
  replace ((48 <=? 48 + d) && (48 + d <=? 57)) with true by lia.
  f_equal. lia.
Qed.

Lemma digits_go_scan (fuel : nat) :
  ∀ (n : Z) (acc : string), 0 ≤ n < 10 ^ Z.of_nat fuel →
  ∃ j, 0 ≤ j ∧ ∀ a, scan_digits (digits_go fuel n acc) a
                     = scan_digits acc (a * 10 ^ j + n).
Proof.
  induction fuel as [| fuel IH]; intros n acc Hn.
  - exists 0. split; [lia |]. intros a. cbn [digits_go].
    change (10 ^ Z.of_nat 0) with 1 in Hn. f_equal. change (10 ^ 0) with 1. lia.
  - cbn [digits_go]. cbv zeta.
    pose proof (Z.mod_pos_bound n 10 eq_refl) as Hm.
    pose proof (Z.div_mod n 10 ltac:(lia)) as Hdm.
    destruct (n <? 10) eqn:Hlt.
    + exists 1. split; [lia |]. intros a.
      rewrite scan_digits_digit by lia. f_equal.
      rewrite Z.mod_small by lia. change (10 ^ 1) with 10. lia.
    + assert (Hq : 0 ≤ n / 10 < 10 ^ Z.of_nat fuel).
      { split; [apply Z.div_pos; lia |].
        apply Z.div_lt_upper_bound; [lia |].
        rewrite Nat2Z.inj_succ, Z.pow_succ_r in Hn by lia. lia. }
      destruct (IH (n / 10) (String (chr (48 + n mod 10)) acc) Hq) as (j & Hj & Hscan).
      exists (j + 1). split; [lia |]. intros a.
      rewrite Hscan, scan_digits_digit by lia. f_equal.
      rewrite Z.pow_add_r by lia. change (10 ^ 1) with 10. lia.
Qed.

Lemma digits_go_head (fuel : nat) :
  ∀ (n : Z) (acc : string), 0 < n < 10 ^ Z.of_nat fuel →
  ∃ d ds, 1 ≤ d ≤ 9 ∧ digits_go fuel n acc = String (chr (48 + d)) ds.
Proof.
  induction fuel as [| fuel IH]; intros n acc Hn.
  - change (10 ^ Z.of_nat 0) with 1 in Hn. lia.
  - cbn [digits_go]. cbv zeta.
    destruct (n <? 10) eqn:Hlt.
    + exists (n mod 10), acc. rewrite Z.mod_small by lia. split; [lia | reflexivity].
    + apply IH. split.
      * apply Z.div_str_pos. lia.
      * apply Z.div_lt_upper_bound; [lia |].
        rewrite Nat2Z.inj_succ, Z.pow_succ_r in Hn by lia. lia.
Qed.

Lemma digits_fuel (n : Z) :
  0 < n → n < 10 ^ Z.of_nat (Z.to_nat (Z.log2 n) + 1).
Proof.
  intros Hn. pose proof (Z.log2_nonneg n) as Hl.
  destruct (Z.log2_spec n Hn) as [_ Hup].
  replace (Z.of_nat (Z.to_nat (Z.log2 n) + 1)) with (Z.succ (Z.log2 n)) by lia.
  eapply Z.lt_le_trans; [exact Hup |].
  apply Z.pow_le_mono_l. lia.
Qed.

Lemma scan_digits_delimited (rest : string) (a : Z) :
  delimited rest = true → scan_digits rest a = (a, rest).
Proof.
  destruct rest as [| c r]; [reflexivity |].
  cbn [delimited scan_digits]. cbv zeta. unfold is_digit. intros Hd.
  replace ((48 <=? byte_of c) && (byte_of c <=? 57)) with false by lia.
  reflexivity.
Qed.

Lemma scan_positive (n : Z) (rest : string) :
  0 < n → delimited rest = true →
  ∃ c r, str_int n ++ rest = String c r
         ∧ 49 ≤ byte_of c ≤ 57
         ∧ scan_digits r (byte_of c - 48) = (n, rest).
Proof.
  intros Hn Hd. unfold str_int.
  replace (n <? 0) with false by lia.
  rewrite digits_go_append, append_nil_l.
  pose proof (digits_fuel n Hn) as Hf.
  destruct (digits_go_head _ n rest (conj Hn Hf)) as (d & ds & Hdr & Hhead).
  destruct (digits_go_scan _ n rest (conj (Z.lt_le_incl _ _ Hn) Hf)) as (j & Hj & Hscan).
  exists (chr (48 + d)), ds. split; [exact Hhead |].
  rewrite byte_of_chr by lia. split; [lia |].
  specialize (Hscan 0). rewrite Hhead, scan_digits_digit in Hscan by lia.
  replace (48 + d - 48) with (0 * 10 + d) by lia.
  rewrite Hscan. replace (0 * 10 ^ j + n) with n by lia.
  apply scan_digits_delimited, Hd.
Qed.

Lemma delimited_not_number (rest : string) :
  delimited rest = true →
  match rest with
  | String d _ => (byte_of d =? 46) || (byte_of d =? 101) || (byte_of d =? 69)
  | EmptyString => false
  end = false.
Proof.
  destruct rest as [| d r]; [reflexivity |]. cbn [delimited]. cbv zeta. lia.
Qed.

Lemma scan_int_finish (neg : bool) (v : Z) (rest : string) :
  delimited rest = true →
  match rest with
  | String d _ =>
      if (byte_of d =? 46) || (byte_of d =? 101) || (byte_of d =? 69)
      then None
      else Some (if neg then - v else v, rest)
  | EmptyString => Some (if neg then - v else v, rest)
  end = Some (if neg then - v else v, rest).
Proof.
  intros Hd. pose proof (delimited_not_number rest Hd) as H.
  destruct rest as [| d r]; [reflexivity |]. rewrite H. reflexivity.
Qed.

Lemma scan_int_str_int (n : Z) (rest : string) :
  delimited rest = true →
  scan_int (str_int n ++ rest) = Some (n, rest).
Proof.
  intros Hd.
  destruct (Z.lt_trichotomy n 0) as [Hneg | [-> | Hpos]].
  - destruct (scan_positive (- n) rest ltac:(lia) Hd) as (c & r & Hs & Hc & Hscan).
    assert (Hstr : str_int n ++ rest = String "-" (String c r)).
    { unfold str_int in *. replace (n <? 0) with true by lia.
      replace (- n <? 0) with false in Hs by lia.
      rewrite append_cons, Hs. reflexivity. }
    rewrite Hstr. unfold scan_int.
    change (byte_of "-" =? 45) with true. cbv iota beta.
    unfold is_digit. replace ((48 <=? byte_of c) && (byte_of c <=? 57)) with true by lia.
    cbn [negb]. replace (byte_of c =? 48) with false by lia.
    rewrite Hscan, (scan_int_finish true (- n) rest Hd).
    f_equal. f_equal. lia.
  - change (str_int 0 ++ rest) with (String "0" rest). unfold scan_int.
    change (byte_of "0" =? 45) with false. cbv iota beta.
    change (negb (is_digit "0")) with false.
    change (byte_of "0" =? 48) with true. cbv iota beta.
    apply (scan_int_finish false 0 rest Hd).
  - destruct (scan_positive n rest Hpos Hd) as (c & r & Hs & Hc & Hscan).
    rewrite Hs. unfold scan_int.
    replace (byte_of c =? 45) with false by lia. cbv iota beta.
    unfold is_digit. replace ((48 <=? byte_of c) && (byte_of c <=? 57)) with true by lia.
    cbn [negb]. replace (byte_of c =? 48) with false by lia.
    rewrite Hscan. apply (scan_int_finish false n rest Hd).
Qed.

Lemma str_int_head (n : Z) (rest : string) :
  delimited rest = true →
  ∃ c r, str_int n ++ rest = String c r
         ∧ (byte_of c = 45 ∨ 48 ≤ byte_of c ≤ 57).
Proof.
  intros Hd.
  destruct (Z.lt_trichotomy n 0) as [Hneg | [-> | Hpos]].
  - unfold str_int. replace (n <? 0) with true by lia.
    eexists _, _. rewrite append_cons. split; [reflexivity | left; reflexivity].
  - exists "0"%char, rest. split; [reflexivity | right]. change (byte_of "0") with 48. lia.
  - destruct (scan_positive n rest Hpos Hd) as (c & r & Hs & Hc & _).
    exists c, r. split; [exact Hs | lia].
Qed.

Lemma parse_value_int (fuel : nat) (n : Z) (rest : string) :
  delimited rest = true →
  parse_value (S fuel) (str_int n ++ rest) = Some (JInt n, rest).
Proof.
  intros Hd. destruct (str_int_head n rest Hd) as (c & r & Hs & Hc).
  pose proof (scan_int_str_int n rest Hd) as Hscan. rewrite Hs in *.
  cbn [parse_value]. cbv zeta.
  replace (byte_of c =? 34) with false by lia.
  replace (byte_of c =? 123) with false by lia.
  replace (byte_of c =? 91) with false by lia.
  replace (byte_of c =? 110) with false by lia.
  replace (byte_of c =? 116) with false by lia.
  replace (byte_of c =? 102) with false by lia.
  rewrite Hscan. reflexivity.
Qed.

(** *** Whitespace and the first character of a value *)

Lemma skip_ws_newline_indent (indent level : nat) (s : string) :
  skip_ws (newline_indent indent level ++ s) = skip_ws s.
Proof.
  unfold newline_indent. rewrite append_cons. cbn [skip_ws].
  change (is_ws newline) with true. cbv iota.
  induction (indent * level)%nat as [| k IH]; [reflexivity |].
  cbn [spaces]. rewrite append_cons. cbn [skip_ws].
  change (is_ws " ") with true. cbv iota. exact IH.
Qed.

Lemma starts_value_skip_ws (s : string) : starts_value s → skip_ws s = s.
Proof.
  intros (c & r & -> & Hws & _). cbn [skip_ws]. rewrite Hws. reflexivity.
Qed.

Lemma starts_value_literal (c : ascii) (r : string) :
  is_ws c = false → byte_of c ≠ 93 → byte_of c ≠ 125 →
  starts_value (String c r).
Proof. intros. exists c, r. auto. Qed.

Lemma encode_starts_value (indent level : nat) (v : json) (rest : string) :
  delimited rest = true → starts_value (encode indent level v ++ rest).
Proof.
  intros Hd. destruct v as [| [|] | n | s | [| x xs] | [| [k x] xs]];
    try (apply starts_value_literal; [reflexivity | discriminate | discriminate]).
  cbn [encode]. destruct (str_int_head n rest Hd) as (c & r & -> & Hc).
  apply starts_value_literal; unfold is_ws; lia.
Qed.

Lemma starts_value_not_closing (s : string) :
  starts_value s → starts_with 93 s = None ∧ starts_with 125 s = None.
Proof.
  intros (c & r & -> & _ & H93 & H125). cbn [starts_with].
  rewrite (proj2 (Z.eqb_neq _ _) H93), (proj2 (Z.eqb_neq _ _) H125). auto.
Qed.

(** *** Arrays and objects read back *)

Lemma items_tail_nil indent level rest :
  items_tail indent level [] rest = newline_indent indent level ++ String "]" rest.
Proof. reflexivity. Qed.

Lemma items_tail_cons indent level y ys rest :
  items_tail indent level (y :: ys) rest
  = String "," (newline_indent indent (S level)
                ++ encode indent (S level) y ++ items_tail indent level ys rest).
Proof.
  unfold items_tail. rewrite encode_items_cons, !append_assoc. reflexivity.
Qed.

Lemma members_tail_nil indent level rest :
  members_tail indent level [] rest = newline_indent indent level ++ String "}" rest.
Proof. reflexivity. Qed.

Lemma members_tail_cons indent level k y ys rest :
  members_tail indent level ((k, y) :: ys) rest
  = String "," (newline_indent indent (S level)
                ++ encode_basestring_ascii k
                ++ String ":" (String " " (encode indent (S level) y
                                           ++ members_tail indent level ys rest))).
Proof.
  unfold members_tail. rewrite encode_members_cons, !append_assoc. reflexivity.
Qed.

Lemma encode_array_text indent level x xs rest :
  encode indent level (JArray (x :: xs)) ++ rest
  = String "[" (newline_indent indent (S level)
                ++ encode indent (S level) x ++ items_tail indent level xs rest).
Proof.
  unfold items_tail. rewrite encode_array_cons, !append_assoc. reflexivity.
Qed.

Lemma encode_object_text indent level k x xs rest :
  encode indent level (JObject ((k, x) :: xs)) ++ rest
  = String "{" (newline_indent indent (S level)
                ++ encode_basestring_ascii k
                ++ String ":" (String " " (encode indent (S level) x
                                           ++ members_tail indent level xs rest))).
Proof.
  unfold members_tail. rewrite encode_object_cons, !append_assoc. reflexivity.
Qed.

Lemma items_tail_delimited indent level xs rest :
  delimited (items_tail indent level xs rest) = true.
Proof. destruct xs; [reflexivity | rewrite items_tail_cons; reflexivity]. Qed.

Lemma members_tail_delimited indent level xs rest :
  delimited (members_tail indent level xs rest) = true.
Proof. destruct xs as [| [k y] ys]; [reflexivity | rewrite members_tail_cons; reflexivity]. Qed.

Lemma bind_some {A B} (a : A) (k : A → option B) : (Some a ≫= k) = k a.
Proof. reflexivity. Qed.

Lemma parse_items_step (fuel : nat) (s : string) (acc : list json) :
  parse_items (S fuel) s acc
  = '(v, rest) ← parse_value fuel s;
    match skip_ws rest with
    | String c r =>
        if byte_of c =? 93 then Some (JArray (rev (v :: acc)), r)
        else if byte_of c =? 44 then parse_items fuel (skip_ws r) (v :: acc)
        else None
    | EmptyString => None
    end.
Proof. reflexivity. Qed.

Lemma parse_members_step (fuel : nat) (s : string) (acc : list (string * json)) :
  parse_members (S fuel) s acc
  = r0 ← starts_with 34 s;
    '(k, r1) ← scan_string r0 None;
    r2 ← starts_with 58 (skip_ws r1);
    '(v, r3) ← parse_value fuel (skip_ws r2);
    match skip_ws r3 with
    | String c r =>
        if byte_of c =? 125 then Some (JObject (dict_set k v acc), r)
        else if byte_of c =? 44 then
          parse_members fuel (skip_ws r) (dict_set k v acc)
        else None
    | EmptyString => None
    end.
Proof. reflexivity. Qed.

Lemma size_pos (v : json) : (1 ≤ size v)%nat.
Proof. destruct v; cbn [size]; lia. Qed.

Lemma parse_items_encode (indent level : nat) (rest : string) :
  ∀ (xs : list json) (x : json) (acc : list json) (fuel : nat),
    reads_back x → Forall reads_back xs →
    (1 + size x + fold_right (λ y n, size y + n) 0 xs ≤ fuel)%nat →
    parse_items fuel
      (encode indent (S level) x ++ items_tail indent level xs rest) acc
    = Some (JArray (rev acc ++ x :: xs), rest).
Proof.
  induction xs as [| y ys IH]; intros x acc fuel Hx Hxs Hf;
    (destruct fuel as [| fuel]; [lia |]); rewrite parse_items_step;
    rewrite (Hx indent (S level) fuel _)
      by (cbn [fold_right] in Hf; lia || apply items_tail_delimited);
    rewrite bind_some.
  - rewrite items_tail_nil, skip_ws_newline_indent. reflexivity.
  - rewrite items_tail_cons. cbn [skip_ws].
    change (is_ws ",") with false. cbv iota.
    change (byte_of "," =? 93) with false. change (byte_of "," =? 44) with true.
    cbv iota. rewrite skip_ws_newline_indent.
    rewrite starts_value_skip_ws
      by (apply encode_starts_value, items_tail_delimited).
    apply Forall_cons_1 in Hxs as [Hy Hys].
    rewrite (IH y (x :: acc) fuel Hy Hys)
      by (pose proof (size_pos x); cbn [fold_right] in Hf; lia).
    cbn [rev]. rewrite <- app_assoc. reflexivity.
Qed.

Lemma dict_set_fresh (k : string) (v : json) (acc : list (string * json)) :
  k ∉ fst <$> acc → dict_set k v acc = (acc ++ [(k, v)])%list.
Proof.
  induction acc as [| [k' v'] acc IH]; intros Hk; [reflexivity |].
  cbn [dict_set]. rewrite fmap_cons in Hk. apply not_elem_of_cons in Hk as [Hne Hk].
  cbn [fst] in Hne. rewrite (proj2 (String.eqb_neq _ _) Hne).
  rewrite IH by exact Hk. reflexivity.
Qed.

Lemma skip_ws_key (k s : string) :
  skip_ws (encode_basestring_ascii k ++ s) = encode_basestring_ascii k ++ s.
Proof. reflexivity. Qed.

Lemma parse_members_encode (indent level : nat) (rest : string) :
  ∀ (ys : list (string * json)) (k : string) (x : json)
    (acc : list (string * json)) (fuel : nat),
    valid_utf8 k = true → reads_back x →
    Forall (λ kv, valid_utf8 (fst kv) = true ∧ reads_back (snd kv)) ys →
    NoDup (fst <$> (acc ++ (k, x) :: ys)%list) →
    (1 + size x + fold_right (λ kv n, size (snd kv) + n) 0 ys ≤ fuel)%nat →
    parse_members fuel
      (encode_basestring_ascii k
       ++ String ":" (String " " (encode indent (S level) x
                                  ++ members_tail indent level ys rest))) acc
    = Some (JObject (acc ++ (k, x) :: ys)%list, rest).
Proof.
  induction ys as [| [k' y] ys IH]; intros k x acc fuel Hk Hx Hys Hnd Hf;
    (destruct fuel as [| fuel]; [lia |]); rewrite parse_members_step;
    (match goal with
     | |- context [encode_basestring_ascii k ++ ?tail] =>
         destruct (scan_string_encoded k tail Hk) as (r & -> & Hscan)
     end);
    cbn [starts_with]; change (byte_of dquote =? 34) with true; cbv iota;
    rewrite bind_some, Hscan, bind_some; cbn [skip_ws];
    change (is_ws ":") with false; cbv iota; cbn [starts_with];
    change (byte_of ":" =? 58) with true; cbv iota; rewrite bind_some;
    cbn [skip_ws]; change (is_ws " ") with true; cbv iota;
    rewrite starts_value_skip_ws
      by (apply encode_starts_value, members_tail_delimited);
    rewrite (Hx indent (S level) fuel _)
      by (cbn [fold_right] in Hf; lia || apply members_tail_delimited);
    rewrite bind_some;
    (assert (Hfresh : k ∉ fst <$> acc)
      by (rewrite fmap_app, fmap_cons in Hnd; apply NoDup_app in Hnd as (_ & Hnd & _);
          intros Hin; apply (Hnd k Hin); left));
    rewrite (dict_set_fresh k x acc Hfresh).
  - rewrite members_tail_nil, skip_ws_newline_indent. reflexivity.
  - rewrite members_tail_cons. cbn [skip_ws].
    change (is_ws ",") with false. cbv iota.
    change (byte_of "," =? 125) with false. change (byte_of "," =? 44) with true.
    cbv iota. rewrite skip_ws_newline_indent, skip_ws_key.
    apply Forall_cons_1 in Hys as [[Hk' Hy] Hys]. cbn [fst snd] in Hk', Hy.
    rewrite (IH k' y (acc ++ [(k, x)])%list fuel Hk' Hy Hys).
    + rewrite <- app_assoc. reflexivity.
    + rewrite <- app_assoc. exact Hnd.
    + pose proof (size_pos x). cbn [fold_right snd] in Hf. lia.
Qed.

Lemma wf_reads_back (v : json) : wf_json v = true → reads_back v.
Proof.
  induction v as [| b | n | s | l IH | m IH] using json_induction;
    intros Hwf indent level fuel rest Hf Hd;
    (destruct fuel as [| fuel]; [cbn [size] in Hf; lia |]).
  - reflexivity.
  - destruct b; reflexivity.
  - apply parse_value_int, Hd.
  - cbn [wf_json] in Hwf. cbn [encode].
    destruct (scan_string_encoded s rest Hwf) as (r & -> & Hscan).
    cbn [parse_value]. change (byte_of dquote =? 34) with true. cbv iota.
    rewrite Hscan. reflexivity.
  - destruct l as [| x xs]; [reflexivity |].
    rewrite encode_array_text. cbn [parse_value].
    change (byte_of "[" =? 34) with false. change (byte_of "[" =? 123) with false.
    change (byte_of "[" =? 91) with true. cbv iota.
    rewrite skip_ws_newline_indent.
    rewrite starts_value_skip_ws
      by (apply encode_starts_value, items_tail_delimited).
    destruct (starts_value_not_closing _
                (encode_starts_value indent (S level) x _
                   (items_tail_delimited indent level xs rest))) as [-> _].
    cbn [wf_json forallb] in Hwf. apply andb_true_iff in Hwf as [Hwx Hwxs].
    apply Forall_cons_1 in IH as [IHx IHxs].
    apply (parse_items_encode indent level rest xs x []).
    + apply IHx, Hwx.
    + clear -IHxs Hwxs. induction IHxs as [| y ys Hy Hys IHys]; constructor;
        cbn [forallb] in Hwxs; apply andb_true_iff in Hwxs as [? ?]; auto.
    + cbn [size fold_right] in Hf. lia.
  - destruct m as [| [k x] xs]; [reflexivity |].
    rewrite encode_object_text. cbn [parse_value].
    change (byte_of "{" =? 34) with false. change (byte_of "{" =? 123) with true.
    cbv iota. rewrite skip_ws_newline_indent, skip_ws_key.
    assert (Hclose : ∀ t, starts_with 125 (encode_basestring_ascii k ++ t) = None)
      by reflexivity.
    rewrite Hclose.
    cbn [wf_json forallb] in Hwf. rewrite !andb_true_iff in Hwf.
    destruct Hwf as [[[Hk Hwx] Hwxs] Hnd]. apply bool_decide_eq_true_1 in Hnd.
    apply Forall_cons_1 in IH as [IHx IHxs]. cbn [snd] in IHx.
    apply (parse_members_encode indent level rest xs k x []).
    + exact Hk.
    + apply IHx, Hwx.
    + clear -IHxs Hwxs. induction IHxs as [| [k' y] ys Hy Hys IHys]; constructor;
        cbn [forallb] in Hwxs; rewrite !andb_true_iff in Hwxs;
        destruct Hwxs as [[? ?] ?]; cbn [fst snd] in *; auto.
    + exact Hnd.
    + cbn [size fold_right snd] in Hf. lia.
Qed.

(** *** The whole text *)

Lemma str_int_length (n : Z) : (1 ≤ String.length (str_int n))%nat.
Proof.
  destruct (str_int_head n EmptyString eq_refl) as (c & r & Hs & _).
  rewrite append_nil_r in Hs. rewrite Hs. cbn [String.length]. lia.
Qed.

Lemma encode_items_length (indent level : nat) (l : list json) :
  Forall (λ x, ∀ i lv, (size x ≤ String.length (encode i lv x))%nat) l →
  (fold_right (λ x n, size x + n) 0 l
   ≤ String.length (encode_items indent level l))%nat.
Proof.
  induction 1 as [| y ys Hy Hys IH]; [reflexivity |].
  rewrite encode_items_cons, !length_append. cbn [fold_right].
  specialize (Hy indent (S level)). lia.
Qed.

Lemma encode_members_length (indent level : nat) (m : list (string * json)) :
  Forall (λ kv, ∀ i lv, (size (snd kv) ≤ String.length (encode i lv (snd kv)))%nat) m →
  (fold_right (λ kv n, size (snd kv) + n) 0 m
   ≤ String.length (encode_members indent level m))%nat.
Proof.
  induction 1 as [| [k y] ys Hy Hys IH]; [reflexivity |].
  rewrite encode_members_cons, !length_append. cbn [fold_right snd] in *.
  specialize (Hy indent (S level)). lia.
Qed.

Lemma size_le_length (v : json) :
  ∀ indent level, (size v ≤ String.length (encode indent level v))%nat.
Proof.
  induction v as [| [|] | n | s | l IH | m IH] using json_induction;
    intros indent level; cbn [size].
  - cbn. lia.
  - cbn. lia.
  - cbn. lia.
  - apply str_int_length.
  - cbn [encode]. unfold encode_basestring_ascii. cbn [String.length]. lia.
  - destruct IH as [| x xs Hx Hxs]; [cbn; lia |].
    rewrite encode_array_cons, !length_append. cbn [fold_right].
    pose proof (encode_items_length indent level xs Hxs).
    specialize (Hx indent (S level)).
    change (String.length "[") with 1%nat. change (String.length "]") with 1%nat.
    lia.
  - destruct IH as [| [k x] xs Hx Hxs]; [cbn; lia |].
    rewrite encode_object_cons, !length_append. cbn [fold_right snd] in *.
    pose proof (encode_members_length indent level xs Hxs).
    specialize (Hx indent (S level)).
    change (String.length "{") with 1%nat. change (String.length "}") with 1%nat.
    lia.
Qed.

Lemma json_loads_dumps (indent : nat) (v : json) :
  wf_json v = true → json_loads (json_dumps indent v) = Some v.
Proof.
  intros Hwf. unfold json_loads, json_dumps.
  set (s := encode indent 0 v).
  assert (Hskip : skip_ws s = s).
  { apply starts_value_skip_ws. rewrite <- (append_nil_r s).
    apply encode_starts_value. reflexivity. }
  pose proof (wf_reads_back v Hwf indent 0%nat (S (String.length s)) EmptyString) as H.
  fold s in H. rewrite append_nil_r in H.
  rewrite Hskip, H; [reflexivity | | reflexivity].
  pose proof (size_le_length v indent 0). fold s in H0. lia.
Qed.

(** X11: [json.load] undoes [json.dump] on every document whose strings are
    well-formed UTF-8 and whose dictionaries have each key once, at any
    indentation: the text always parses and gives the document back. *)
Theorem json_roundtrip (indent : nat) (v : json) :
  wf_json v = true → json_loads (json_dumps indent v) = Some v.
Proof. apply json_loads_dumps. Qed.

Lemma json_roundtrip_witness :
  wf_json export_data = true
  ∧ json_loads (json_dumps 2 export_data) = Some export_data.
Proof.
  assert (H : wf_json export_data = true) by (vm_compute; reflexivity).
  split; [exact H | exact (json_roundtrip 2 export_data H)].
Defined.

(** *** Any catalogue *)

Lemma wf_json_of_strings (l : list string) :
  wf_json (json_of_strings l) = forallb valid_utf8 l.
Proof.
  unfold json_of_strings. cbn [wf_json].
  induction l as [| x l IH]; [reflexivity |].
  rewrite fmap_cons. cbn [forallb wf_json]. rewrite IH. reflexivity.
Qed.

Lemma wf_json_of_optional (o : option string) :
  wf_json (json_of_optional o) = from_option valid_utf8 true o.
Proof. destruct o; reflexivity. Qed.

Lemma to_dict_wf (s : StateTobaccoPolicy) :
  valid_record s = true → wf_json (to_dict s) = true.
Proof.
  unfold valid_record. rewrite !andb_true_iff.
  intros [[[[[[[[[[[[[H1 H2] H3] H4] H5] H6] H7] H8] H9] H10] H11] H12] H13] H14].
  unfold to_dict. cbn [wf_json forallb].
  rewrite !wf_json_of_strings, !wf_json_of_optional.
  cbn [wf_json fmap list_fmap fst].
  rewrite H1, H2, H3, H4, H5, H6, H7, H8, H9, H10, H11, H12, H13, H14.
  vm_compute. reflexivity.
Qed.

Lemma export_data_of_wf (l : list StateTobaccoPolicy) :
  forallb valid_record l = true → wf_json (export_data_of l) = true.
Proof.
  intros Hl. unfold export_data_of.
  assert (Hst : forallb wf_json (to_dict <$> l) = true).
  { induction l as [| s l IH]; [reflexivity |].
    cbn [forallb] in Hl. apply andb_true_iff in Hl as [Hs Hl].
    rewrite fmap_cons. cbn [forallb]. rewrite (to_dict_wf s Hs), (IH Hl). reflexivity. }
  cbn [wf_json forallb fmap list_fmap fst]. rewrite Hst.
  vm_compute. reflexivity.
Qed.

(** X12: the export is read back in full for any catalogue, not only the
    authored one: if the texts of the records are well-formed, the text
    written for them parses, its [states] array has one element per record,
    in order, and each element is the dictionary of its record. *)
Theorem export_roundtrip_any_catalogue (l : list StateTobaccoPolicy) :
  forallb valid_record l = true →
  json_loads (json_dumps 2 (export_data_of l)) = Some (export_data_of l)
  ∧ dict_get "states" (export_data_of l) = Some (JArray (to_dict <$> l))
  ∧ length (to_dict <$> l) = length l
  ∧ ∀ i : nat, (to_dict <$> l) !! i = to_dict <$> (l !! i).
Proof.
  intros Hl. split; [apply json_loads_dumps, export_data_of_wf, Hl |].
  split; [reflexivity |]. split; [apply length_fmap |].
  intros i. apply list_lookup_fmap.
Qed.

(** The authored catalogue is one such catalogue. *)
Lemma export_roundtrip_any_catalogue_witness :
  forallb valid_record STATES = true
  ∧ export_data_of STATES = export_data
  ∧ json_loads (json_dumps 2 (export_data_of STATES)) = Some (export_data_of STATES).
Proof.
  assert (H : forallb valid_record STATES = true) by (vm_compute; reflexivity).
  split; [exact H |]. split; [reflexivity |].
  exact (proj1 (export_roundtrip_any_catalogue STATES H)).
Defined.
